(** * ls_manage.py: a shallow embedding and its properties

    The script exports the Little Snitch configuration, edits the exported
    JSON document in memory (one code requirement, one rule) and restores
    it.  The development follows the script function by function:

    - [Py]       the fragment of the Python runtime the script relies on:
                 exceptions, [str] operations, JSON values as produced by
                 [json.load], and the dynamically typed operations on them;
    - [Os]       the host: file system, clock, child processes;
    - [LsManage] the functions of ls_manage.py, under their own names.

    Left out: what the script prints, and the parsing of the command
    line ([main]); [update_rule] starts from the parsed arguments.
    [run_command] is modelled for [shell=False], the only way the script
    calls it. *)

From Stdlib Require Import String Ascii List ZArith Bool Arith Lia.
From Stdlib Require Import Strings.Byte.
From Equations Require Import Equations.
Import ListNotations.

Set Warnings "-register-all".

Local Open Scope string_scope.
Local Open Scope list_scope.

(* ===================================================================== *)
(** ** Python runtime                                                     *)
(* ===================================================================== *)

Module Py.

(** *** Values built by [json.load] *)

Inductive json : Type :=
| JNull
| JBool (b : bool)
| JInt (n : Z)
| JFloat (bits : Z)          (* IEEE-754 binary64 pattern *)
| JStr (s : string)
| JArr (items : list json)
| JObj (fields : list (string * json)).

(** Exceptions the script can meet.  [SystemExit] is the only one that is
    not a subclass of [Exception]. *)
Inductive exn : Type :=
| SystemExit (code : Z)
| KeyError (key : json)
| IndexError
| TypeError
| AttributeError
| OSError
| JSONDecodeError
| UnicodeDecodeError
| CalledProcessError (returncode : Z).

Definition is_Exception (e : exn) : bool :=
  match e with
  | SystemExit _ => false
  | _ => true
  end.

Inductive result (A : Type) : Type :=
| Ok (a : A)
| Raise (e : exn).

Arguments Ok {A} a.
Arguments Raise {A} e.

Definition bind {A B : Type} (r : result A) (k : A -> result B) : result B :=
  match r with
  | Ok a => k a
  | Raise e => Raise e
  end.

(** *** str
    A [str] is held as the bytes of its UTF-8 form. *)

(** [needle in hay] on two strings. *)
Fixpoint contains (needle hay : string) : bool :=
  String.prefix needle hay ||
  match hay with
  | EmptyString => false
  | String _ rest => contains needle rest
  end.

(** [s.split(sep)] for a one-character separator. *)
Fixpoint split (sep : ascii) (s : string) : list string :=
  match s with
  | EmptyString => [EmptyString]
  | String c rest =>
      if Ascii.eqb c sep then EmptyString :: split sep rest
      else match split sep rest with
           | [] => [String c EmptyString]
           | part :: parts => String c part :: parts
           end
  end.

(** [sep.join(parts)]. *)
Fixpoint join (sep : string) (parts : list string) : string :=
  match parts with
  | [] => EmptyString
  | [p] => p
  | p :: rest => p ++ sep ++ join sep rest
  end%string.

(** [parts.index(x)]; [None] stands for the [ValueError]. *)
Fixpoint index (x : string) (parts : list string) : option nat :=
  match parts with
  | [] => None
  | p :: rest => if String.eqb p x then Some 0
                 else option_map S (index x rest)
  end.

(** White space as [str.strip()] sees it.  White space outside ASCII is
    recognised in its UTF-8 form: U+0085 and U+00A0 take two bytes;
    U+1680, U+2000 to U+200A, U+2028, U+2029, U+202F, U+205F and U+3000
    take three. *)
Definition is_space (c : ascii) : bool :=
  let n := nat_of_ascii c in
  (Nat.eqb n 32) || (Nat.leb 9 n && Nat.leb n 13)
  || (Nat.leb 28 n && Nat.leb n 31).

Definition is_space2 (c1 c2 : ascii) : bool :=
  let n2 := nat_of_ascii c2 in
  Nat.eqb (nat_of_ascii c1) 194 && (Nat.eqb n2 133 || Nat.eqb n2 160).

Definition is_space3 (c1 c2 c3 : ascii) : bool :=
  let n1 := nat_of_ascii c1 in
  let n2 := nat_of_ascii c2 in
  let n3 := nat_of_ascii c3 in
  (Nat.eqb n1 225 && Nat.eqb n2 154 && Nat.eqb n3 128)
  || (Nat.eqb n1 226 && Nat.eqb n2 128
      && ((Nat.leb 128 n3 && Nat.leb n3 138)
          || Nat.eqb n3 168 || Nat.eqb n3 169 || Nat.eqb n3 175))
  || (Nat.eqb n1 226 && Nat.eqb n2 129 && Nat.eqb n3 159)
  || (Nat.eqb n1 227 && Nat.eqb n2 128 && Nat.eqb n3 128).

(** Leading white space taken off; with [backwards] the text is read
    from its end, last byte first. *)
Fixpoint skip_space (backwards : bool) (s : string) : string :=
  match s with
  | EmptyString => EmptyString
  | String c1 r1 =>
      if is_space c1 then skip_space backwards r1
      else
        match r1 with
        | EmptyString => s
        | String c2 r2 =>
            if (if backwards then is_space2 c2 c1 else is_space2 c1 c2)
            then skip_space backwards r2
            else
              match r2 with
              | EmptyString => s
              | String c3 r3 =>
                  if (if backwards then is_space3 c3 c2 c1
                      else is_space3 c1 c2 c3)
                  then skip_space backwards r3
                  else s
              end
        end
  end.

Definition reverse (s : string) : string :=
  string_of_list_ascii (rev (list_ascii_of_string s)).

Definition lstrip (s : string) : string := skip_space false s.

Definition rstrip (s : string) : string :=
  reverse (skip_space true (reverse s)).

Definition strip (s : string) : string := rstrip (lstrip s).

(** *** dict *)

(** A [dict] with [str] keys keeps its insertion order. *)
Definition dict : Type := list (string * json).

Fixpoint dict_get (k : string) (d : dict) : option json :=
  match d with
  | [] => None
  | (k', v) :: rest => if String.eqb k' k then Some v else dict_get k rest
  end.

Definition dict_mem (k : string) (d : dict) : bool :=
  match dict_get k d with
  | Some _ => true
  | None => false
  end.

(** [d[k] = v]: an existing key keeps its position, a new one goes last. *)
Fixpoint dict_set (k : string) (v : json) (d : dict) : dict :=
  match d with
  | [] => [(k, v)]
  | (k', v') :: rest =>
      if String.eqb k' k then (k', v) :: rest
      else (k', v') :: dict_set k v rest
  end.

(** [del d[k]]: nothing is left under [k]. *)
Definition dict_del (k : string) (d : dict) : dict :=
  filter (fun kv => negb (String.eqb (fst kv) k)) d.

Definition dict_keys (d : dict) : list string := map fst d.

(** [x == s] for a [str] [s]: only an equal [str] compares equal. *)
Definition eq_str (x : json) (s : string) : bool :=
  match x with
  | JStr t => String.eqb t s
  | _ => false
  end.

(** [x != s] where [x] may be the [None] of a failed [dict.get]. *)
Definition ne_str (x : option json) (s : string) : bool :=
  match x with
  | Some v => negb (eq_str v s)
  | None => true
  end.

(** Truth value of an object, as tested by [if x:]. *)
Definition truthy (x : json) : bool :=
  match x with
  | JNull => false
  | JBool b => b
  | JInt n => negb (n =? 0)%Z
  | JFloat bits => negb (bits mod 2 ^ 63 =? 0)%Z
  | JStr s => negb (String.eqb s EmptyString)
  | JArr items => match items with [] => false | _ => true end
  | JObj fields => match fields with [] => false | _ => true end
  end.

(** [v.get(k)] and [v.get(k, default)] *)
Definition get (v : json) (k : string) : result (option json) :=
  match v with
  | JObj d => Ok (dict_get k d)
  | _ => Raise AttributeError
  end.

Definition get_default (v : json) (k : string) (default : json) : result json :=
  match v with
  | JObj d => Ok (match dict_get k d with Some x => x | None => default end)
  | _ => Raise AttributeError
  end.

(** Position designated by an index [i] in a sequence of length [n]. *)
Definition position (i : Z) (n : nat) : option nat :=
  let j := if (i <? 0)%Z then (i + Z.of_nat n)%Z else i in
  if (0 <=? j)%Z && (j <? Z.of_nat n)%Z then Some (Z.to_nat j) else None.

Definition as_index (k : json) : option Z :=
  match k with
  | JInt i => Some i
  | JBool b => Some (if b then 1%Z else 0%Z)
  | _ => None
  end.

(** [v[k]] *)
Definition getitem (v k : json) : result json :=
  match v with
  | JObj d =>
      match k with
      | JStr s => match dict_get s d with
                  | Some x => Ok x
                  | None => Raise (KeyError k)
                  end
      | JArr _ | JObj _ => Raise TypeError             (* unhashable *)
      | _ => Raise (KeyError k)                        (* keys are str *)
      end
  | JArr items =>
      match as_index k with
      | Some i => match position i (length items) with
                  | Some p => match nth_error items p with
                              | Some x => Ok x
                              | None => Raise IndexError
                              end
                  | None => Raise IndexError
                  end
      | None => Raise TypeError
      end
  | JStr s =>
      match as_index k with
      | Some i => match position i (String.length s) with
                  | Some p => Ok (JStr (String.substring p 1 s))
                  | None => Raise IndexError
                  end
      | None => Raise TypeError
      end
  | _ => Raise TypeError
  end.

Fixpoint list_set (p : nat) (x : json) (items : list json) : list json :=
  match items, p with
  | [], _ => []
  | _ :: rest, O => x :: rest
  | y :: rest, S q => y :: list_set q x rest
  end.

(** [v[k] = x]; the result is the object after the assignment. *)
Definition setitem (v k x : json) : result json :=
  match v with
  | JObj d =>
      match k with
      | JStr s => Ok (JObj (dict_set s x d))
      | _ => Raise TypeError
      end
  | JArr items =>
      match as_index k with
      | Some i => match position i (length items) with
                  | Some p => Ok (JArr (list_set p x items))
                  | None => Raise IndexError
                  end
      | None => Raise TypeError
      end
  | _ => Raise TypeError
  end.

(** [del v[k]] for a [str] key. *)
Definition delitem (v : json) (k : string) : result json :=
  match v with
  | JObj d => if dict_mem k d then Ok (JObj (dict_del k d))
              else Raise (KeyError (JStr k))
  | _ => Raise TypeError
  end.

(** [k in v] for a [str] [k]. *)
Definition str_in (k : string) (v : json) : result bool :=
  match v with
  | JStr s => Ok (contains k s)
  | JArr items => Ok (existsb (fun x => eq_str x k) items)
  | JObj d => Ok (dict_mem k d)
  | _ => Raise TypeError
  end.

Fixpoint chars (s : string) : list json :=
  match s with
  | EmptyString => []
  | String c rest => JStr (String c EmptyString) :: chars rest
  end.

(** The elements visited by [for x in v]. *)
Definition iter (v : json) : result (list json) :=
  match v with
  | JObj d => Ok (map JStr (dict_keys d))
  | JArr items => Ok items
  | JStr s => Ok (chars s)
  | _ => Raise TypeError
  end.

(** [v.append(x)] *)
Definition append (v x : json) : result json :=
  match v with
  | JArr items => Ok (JArr (items ++ [x]))
  | _ => Raise AttributeError
  end.

(** *** bytes *)

Definition hex_digit (n : nat) : ascii :=
  nth (n mod 16) (list_ascii_of_string "0123456789abcdef") "0"%char.

Definition hex_byte (b : byte) : string :=
  let n := Byte.to_nat b in
  String (hex_digit (n / 16)) (String (hex_digit n) EmptyString).

(** [bs.hex()] *)
Fixpoint hex (bs : list byte) : string :=
  match bs with
  | [] => EmptyString
  | b :: rest => (hex_byte b ++ hex rest)%string
  end.

End Py.

Export Py.

Notation "x <- r ;; k" := (Py.bind r (fun x => k))
  (at level 61, r at next level, right associativity).

(* ===================================================================== *)
(** ** Host                                                               *)
(* ===================================================================== *)

Module Os.

(** *** Clock *)

(** A naive [datetime]: calendar fields without a time zone. *)
Record datetime : Type := {
  year : nat; month : nat; day : nat;
  hour : nat; minute : nat; second : nat
}.

Definition digit (n : nat) : ascii := ascii_of_nat (48 + n mod 10).

Definition digits2 (n : nat) : string :=
  String (digit (n / 10)) (String (digit n) EmptyString).

Definition digits4 (n : nat) : string :=
  String (digit (n / 1000)) (String (digit (n / 100)) (digits2 n)).

(** [d.strftime("%Y%m%d%H%M%S")] *)
Definition strftime_compact (d : datetime) : string :=
  (digits4 (year d) ++ digits2 (month d) ++ digits2 (day d)
   ++ digits2 (hour d) ++ digits2 (minute d) ++ digits2 (second d))%string.

(** [d.strftime("%Y-%m-%dT%H:%M:%SZ")]: the final [Z] is a literal of the
    format, it is not derived from [d]. *)
Definition strftime_iso (d : datetime) : string :=
  (digits4 (year d) ++ "-" ++ digits2 (month d) ++ "-" ++ digits2 (day d)
   ++ "T" ++ digits2 (hour d) ++ ":" ++ digits2 (minute d) ++ ":"
   ++ digits2 (second d) ++ "Z")%string.

(** One reading of the clock: what [datetime.now()] returns (local wall
    time) and the UTC time of the same instant. *)
Record instant : Type := { local : datetime; utc : datetime }.

(** *** Files *)

(** What a path can designate.  A [File] is a regular file that the user
    may open; a [Locked] one is there as well, but its access rights make
    [open] raise [PermissionError].  Every error of the file system is an
    [OSError] here: the script tells none of them apart. *)
Inductive node : Type :=
| Dir
| File (content : list byte)
| Locked (content : list byte).

(** What each path designates, symbolic links followed. *)
Definition fs : Type := string -> option node.

Definition write (path : string) (n : node) (files : fs) : fs :=
  fun p => if String.eqb p path then Some n else files p.

(** [os.path.join(a, b)] *)
Definition ends_with_slash (a : string) : bool :=
  match rev (list_ascii_of_string a) with
  | c :: _ => Ascii.eqb c "/"%char
  | [] => false
  end.

Definition path_join (a b : string) : string :=
  if String.prefix "/" b then b
  else if String.eqb a EmptyString || ends_with_slash a then (a ++ b)%string
  else (a ++ "/" ++ b)%string.

(** *** Child processes *)

(** How a child process ended, as [subprocess.run] with
    [capture_output=True, text=True] comes to know it.  [stdout] and
    [stderr] are what the process wrote, decoded to [str].  When that
    cannot be decoded the status is of no use: [subprocess.run] raises
    [UnicodeDecodeError] before it looks at it. *)
Inductive outcome : Type :=
| Exited (returncode : Z) (stdout stderr : string)
| Undecodable (returncode : Z)      (* ended, its output is not text *)
| NotStarted.                       (* the program could not be executed *)

Record call : Type := { argv : list string; ended : outcome }.

(** *** The machine the script runs on.
    Everything the script takes from its surroundings and does not
    change itself is a field of [Host]; what changes during a run is in
    [World]. *)
Record Host : Type := {
  USER : option string;                    (* os.environ.get("USER") *)
  getuid : Z;                              (* os.getuid() *)
  realpath : string -> string;             (* os.path.realpath *)
  which : string -> option string;         (* shutil.which *)
  expanduser : string -> string;           (* os.path.expanduser *)
  now : nat -> instant;                    (* the n-th reading of the clock *)
  sha256 : list byte -> list byte;         (* hashlib.sha256(m).digest() *)
  json_loads : list byte -> option json;   (* json.load, None: not JSON *)
  json_dumps : json -> list byte;          (* json.dump(..., indent=2) *)
  (* the effect of the n-th child process on the files, and how it ends *)
  spawn : nat -> list string -> fs -> outcome * fs
}.

Record World : Type := {
  files : fs;
  calls : list call;       (* child processes so far, oldest first *)
  ticks : nat              (* readings of the clock so far *)
}.

(** *** Programs: state and exceptions *)

Definition prog (A : Type) : Type := World -> result A * World.

Definition ret {A : Type} (a : A) : prog A := fun w => (Ok a, w).

Definition raise {A : Type} (e : exn) : prog A := fun w => (Raise e, w).

Definition lift {A : Type} (r : result A) : prog A := fun w => (r, w).

Definition seq {A B : Type} (m : prog A) (k : A -> prog B) : prog B :=
  fun w => match m w with
           | (Ok a, w') => k a w'
           | (Raise e, w') => (Raise e, w')
           end.

(** [try: body / except Exception: handler] *)
Definition try_except {A : Type} (body : prog A) (handler : exn -> prog A)
  : prog A :=
  fun w => match body w with
           | (Ok a, w') => (Ok a, w')
           | (Raise e, w') =>
               if is_Exception e then handler e w' else (Raise e, w')
           end.

(** Exit status of the interpreter for the way a run ended. *)
Definition exit_status {A : Type} (r : result A) : Z :=
  match r with
  | Ok _ => 0
  | Raise (SystemExit code) => code
  | Raise _ => 1
  end.

(** [datetime.now()] *)
Definition datetime_now (h : Host) : prog datetime :=
  fun w => (Ok (local (now h (ticks w))),
            {| files := files w; calls := calls w; ticks := S (ticks w) |}).

(** [os.path.exists(p)] *)
Definition path_exists (p : string) : prog bool :=
  fun w => (Ok (match files w p with Some _ => true | None => false end), w).

(** [os.makedirs(p, exist_ok=True)] *)
Definition makedirs (p : string) : prog unit :=
  fun w => match files w p with
           | Some (File _) | Some (Locked _) => (Raise OSError, w)
           | _ => (Ok tt, {| files := write p Dir (files w);
                             calls := calls w; ticks := ticks w |})
           end.

(** [open(p, "rb").read()] and [open(p).read()] *)
Definition read_file (p : string) (files : fs) : result (list byte) :=
  match files p with
  | Some (File content) => Ok content
  | _ => Raise OSError
  end.

(** [open(p, "w")] followed by one write of [content] *)
Definition write_file (p : string) (content : list byte) : prog unit :=
  fun w => match files w p with
           | Some Dir | Some (Locked _) => (Raise OSError, w)
           | _ => (Ok tt, {| files := write p (File content) (files w);
                             calls := calls w; ticks := ticks w |})
           end.

Fixpoint all_str (cmd : list (option string)) : option (list string) :=
  match cmd with
  | [] => Some []
  | Some a :: rest => option_map (cons a) (all_str rest)
  | None :: _ => None
  end.

(** [subprocess.run(cmd, check=True, capture_output=True, text=True)],
    returning [result.stdout], for a command as the script builds one:
    some words, each a [str] without a NUL character or [None] (a
    variable of the environment that is not set). *)
Definition subprocess_run (h : Host) (cmd : list (option string))
  : prog string :=
  fun w =>
    match all_str cmd with
    | None => (Raise TypeError, w)
    | Some args =>
        let (o, files') := spawn h (length (calls w)) args (files w) in
        let w' := {| files := files';
                     calls := calls w ++ [{| argv := args; ended := o |}];
                     ticks := ticks w |} in
        match o with
        | Exited code out _ =>
            if (code =? 0)%Z then (Ok out, w')
            else (Raise (CalledProcessError code), w')
        | Undecodable _ => (Raise UnicodeDecodeError, w')
        | NotStarted => (Raise OSError, w')
        end
    end.

(** *** hashlib
    A hash object holds the bytes it was fed; the digest is taken over
    their concatenation. *)
Record sha256_hash : Type := { message : list byte }.

Definition sha256_new : sha256_hash := {| message := [] |}.

Definition sha256_update (s : sha256_hash) (block : list byte) : sha256_hash :=
  {| message := message s ++ block |}.

Definition hexdigest (h : Host) (s : sha256_hash) : string :=
  hex (sha256 h (message s)).

End Os.

Export Os.

Notation "x <~ m ;; k" := (Os.seq m (fun x => k))
  (at level 61, m at next level, right associativity).

(* ===================================================================== *)
(** ** ls_manage.py                                                       *)
(* ===================================================================== *)

Module LsManage.

Definition LS_CMD : string :=
  "/Applications/Little Snitch.app/Contents/Components/littlesnitch".

(** *** run_command *)

(** Only [CalledProcessError] is handled, by [sys.exit(1)]; any other
    exception of [subprocess.run] goes through. *)
Definition run_command (h : Host) (cmd : list (option string)) : prog string :=
  fun w =>
    match subprocess_run h cmd w with
    | (Ok out, w') => (Ok (strip out), w')
    | (Raise (CalledProcessError _), w') => (Raise (SystemExit 1), w')
    | (Raise e, w') => (Raise e, w')
    end.

(** *** get_binary_hash *)

Definition inspect {A : Type} (a : A) : {b : A | a = b} := exist _ a eq_refl.

(** The loop [for byte_block in iter(lambda: f.read(size), b"")] over the
    unread part of the file: [f.read(size)] hands out the next [size]
    bytes at most, and the loop stops at the first empty block. *)
Equations hash_blocks (size : nat) (unread : list byte) (acc : sha256_hash)
  : sha256_hash by wf (length unread) lt :=
  hash_blocks size unread acc with inspect (firstn size unread) := {
    | exist _ [] _ => acc
    | exist _ (b :: bs) E =>
        hash_blocks size (skipn size unread) (sha256_update acc (b :: bs)) }.
Next Obligation.
  rewrite length_skipn.
  destruct size as [|size]; [discriminate|].
  destruct unread as [|y unread]; [discriminate|]. simpl. lia.
Qed.

Definition get_binary_hash (h : Host) (files : fs) (path : string)
  : result string :=
  let resolved_path := realpath h path in
  match files resolved_path with
  | None => Raise (SystemExit 1)
  | Some _ =>
      content <- read_file resolved_path files ;;
      Ok (hexdigest h (hash_blocks 4096 content sha256_new))
  end.

(** *** export_config, restore_config *)

Definition export_config (h : Host) (output_path : string) : prog string :=
  run_command h [Some "sudo"; Some LS_CMD; Some "-u"; USER h;
                 Some "export-model"; Some output_path].

Definition restore_config (h : Host) (input_path : string) : prog string :=
  run_command h [Some "sudo"; Some LS_CMD; Some "-u"; USER h;
                 Some "restore-model"; Some input_path].

(** *** find_code_requirement_key *)

(** The loop over the keys: the first one that contains both texts. *)
Fixpoint first_match (package_name relative_path : string) (keys : list json)
  : result (option json) :=
  match keys with
  | [] => Ok None
  | key :: rest =>
      has_name <- str_in package_name key ;;
      if has_name then
        has_path <- str_in relative_path key ;;
        if has_path then Ok (Some key)
        else first_match package_name relative_path rest
      else first_match package_name relative_path rest
  end.

Definition find_code_requirement_key (h : Host) (config : json)
  (binary_path : string) : result (option json) :=
  let real_path := realpath h binary_path in
  if contains "Cellar" real_path then
    let parts := split "/" real_path in
    match index "Cellar" parts with
    | None => Ok None                          (* except ValueError: pass *)
    | Some cellar_index =>
        match nth_error parts (cellar_index + 1) with
        | None => Raise IndexError
        | Some package_name =>
            let relative_path := join "/" (skipn (cellar_index + 3) parts) in
            requirements <- get_default config "codeRequirements" (JObj []) ;;
            keys <- iter requirements ;;
            first_match package_name relative_path keys
        end
    end
  else Ok None.

(** *** update_rule, part 1: the code requirement *)

Definition file_hash (new_hash : string) : json :=
  JObj [("type", JStr "fileHash"); ("codeIdentifier", JStr new_hash)].

(** Lines 130-138, on the entry [current_cr].  The entry is the object
    stored in the configuration, not a copy: the caller puts the result
    back where the entry was. *)
Definition enforce_file_hash (current_cr : json) (new_hash : string)
  : result json :=
  type <- get current_cr "type" ;;
  current_cr <-
    (if ne_str type "fileHash" then
       current_cr <- setitem current_cr (JStr "type") (JStr "fileHash") ;;
       has_author <- str_in "authorIdentifier" current_cr ;;
       if has_author then delitem current_cr "authorIdentifier"
       else Ok current_cr
     else Ok current_cr) ;;
  identifier <- get current_cr "codeIdentifier" ;;
  if ne_str identifier new_hash
  then setitem current_cr (JStr "codeIdentifier") (JStr new_hash)
  else Ok current_cr.

(** Lines 142-150: no usable key, a new entry under the resolved path. *)
Definition create_requirement (config : json) (resolved_path new_hash : string)
  : result json :=
  present <- str_in "codeRequirements" config ;;
  config <- (if present then Ok config
             else setitem config (JStr "codeRequirements") (JObj [])) ;;
  requirements <- getitem config (JStr "codeRequirements") ;;
  requirements <- setitem requirements (JStr resolved_path)
                    (file_hash new_hash) ;;
  setitem config (JStr "codeRequirements") requirements.

(** Lines 124-138: the entry under [cr_key] is edited in place. *)
Definition fix_requirement (config cr_key : json) (new_hash : string)
  : result json :=
  requirements <- getitem config (JStr "codeRequirements") ;;
  current_cr <- getitem requirements cr_key ;;
  current_cr <- enforce_file_hash current_cr new_hash ;;
  requirements <- setitem requirements cr_key current_cr ;;
  setitem config (JStr "codeRequirements") requirements.

(** Lines 121-150.  [if cr_key:] tests the truth value of the key, so an
    empty key counts as no key. *)
Definition update_code_requirements (h : Host) (config : json)
  (binary_path resolved_path new_hash : string) : result json :=
  cr_key <- find_code_requirement_key h config binary_path ;;
  match cr_key with
  | Some key =>
      if truthy key then fix_requirement config key new_hash
      else create_requirement config resolved_path new_hash
  | None => create_requirement config resolved_path new_hash
  end.

(** *** update_rule, part 2: the rule *)

Record Args : Type := {
  path : string;
  ports : string;
  protocol : string;
  direction : string;
  remote : string;
  replace : bool
}.

(** Lines 157-167; [created] and [modified] are the two readings of
    [datetime.now()]. *)
Definition new_rule (args : Args) (binary_path : string)
  (created modified : datetime) : json :=
  JObj [("action", JStr "allow");
        ("process", JStr binary_path);
        ("ports", JStr (ports args));
        ("protocol", JStr (protocol args));
        ("direction", JStr (direction args));
        ("remote", JStr (remote args));
        ("origin", JStr "frontend");
        ("creationDate", JStr (strftime_iso created));
        ("modificationDate", JStr (strftime_iso modified))].

(** The same lines as they run: two separate readings of the clock. *)
Definition make_new_rule (h : Host) (args : Args) (binary_path : string)
  : prog json :=
  created <~ datetime_now h ;;
  modified <~ datetime_now h ;;
  ret (new_rule args binary_path created modified).

(** [[r for r in rules if r.get("process") != binary_path]] *)
Fixpoint other_rules (binary_path : string) (rules : list json)
  : result (list json) :=
  match rules with
  | [] => Ok []
  | r :: rest =>
      process <- get r "process" ;;
      kept <- other_rules binary_path rest ;;
      Ok (if ne_str process binary_path then r :: kept else kept)
  end.

(** Lines 174-179.  [rules] is the value of [config.get("rules", [])]
    taken at line 154. *)
Definition add_rule (config rules rule : json) (binary_path : string)
  (replace_existing : bool) : result json :=
  config <- (if replace_existing then
               items <- iter rules ;;
               kept <- other_rules binary_path items ;;
               setitem config (JStr "rules") (JArr kept)
             else Ok config) ;;
  current <- getitem config (JStr "rules") ;;
  current <- append current rule ;;
  setitem config (JStr "rules") current.

(** Lines 120-179 on the loaded document, with the clock readings given. *)
Definition apply_update (h : Host) (args : Args)
  (binary_path resolved_path new_hash : string) (created modified : datetime)
  (config : json) : result json :=
  config <- update_code_requirements h config binary_path resolved_path
              new_hash ;;
  rules <- get_default config "rules" (JArr []) ;;
  add_rule config rules (new_rule args binary_path created modified)
    binary_path (replace args).

(** *** update_rule *)

(** [with open(p) as f: json.load(f)] *)
Definition load_json (h : Host) (p : string) : prog json :=
  fun w =>
    (content <- read_file p (files w) ;;
     match json_loads h content with
     | Some v => Ok v
     | None => Raise JSONDecodeError
     end, w).

(** Lines 120-179 as they run in [update_rule]: the dates are read from
    the clock between the two parts. *)
Definition edit (h : Host) (args : Args)
  (binary_path resolved_path new_hash : string) (config : json) : prog json :=
  config <~ lift (update_code_requirements h config binary_path resolved_path
                    new_hash) ;;
  rules <~ lift (get_default config "rules" (JArr [])) ;;
  rule <~ make_new_rule h args binary_path ;;
  lift (add_rule config rules rule binary_path (replace args)).

(** Lines 185-193. *)
Definition restore_or_revert (h : Host) (modified_file backup_file : string)
  : prog string :=
  try_except (restore_config h modified_file)
    (fun _ => _ <~ restore_config h backup_file ;; raise (SystemExit 1)).

Definition update_rule (h : Host) (args : Args) : prog unit :=
  found <~ path_exists (path args) ;;
  binary_path <~
    (if found then ret (path args)
     else match which h (path args) with
          | Some p => if String.eqb p EmptyString then raise (SystemExit 1)
                      else ret p
          | None => raise (SystemExit 1)
          end) ;;
  let resolved_path := realpath h binary_path in
  new_hash <~ (fun w => (get_binary_hash h (files w) resolved_path, w)) ;;
  let backup_dir := expanduser h "~/.ls_backups" in
  _ <~ makedirs backup_dir ;;
  stamp <~ datetime_now h ;;
  let timestamp := strftime_compact stamp in
  let backup_file :=
    path_join backup_dir ("ls_backup_" ++ timestamp ++ ".json")%string in
  let modified_file := ("/tmp/ls_modified_" ++ timestamp ++ ".json")%string in
  _ <~ export_config h backup_file ;;
  config <~ load_json h backup_file ;;
  config <~ edit h args binary_path resolved_path new_hash config ;;
  _ <~ write_file modified_file (json_dumps h config) ;;
  _ <~ restore_or_revert h modified_file backup_file ;;
  ret tt.

End LsManage.

Export LsManage.

(* ===================================================================== *)
(** ** Reading a configuration                                            *)
(* ===================================================================== *)

(** The observations the properties below are stated with. *)

(** A top-level field of the document. *)
Definition field (config : json) (name : string) : option json :=
  match config with
  | JObj d => dict_get name d
  | _ => None
  end.

(** The code requirements of a document; none when the field is missing. *)
Definition requirements_of (config : json) : dict :=
  match field config "codeRequirements" with
  | Some (JObj requirements) => requirements
  | _ => []
  end.

Definition requirement (config : json) (key : string) : option json :=
  dict_get key (requirements_of config).

(** The rules of a document; none when the field is missing. *)
Definition rules_of (config : json) : list json :=
  match field config "rules" with
  | Some (JArr rules) => rules
  | _ => []
  end.

(** [r.get("process") == binary_path], false for what is not an object. *)
Definition has_process (binary_path : string) (r : json) : bool :=
  match r with
  | JObj d => negb (ne_str (dict_get "process" d) binary_path)
  | _ => false
  end.

Definition differs (binary_path : string) (r : json) : bool :=
  negb (has_process binary_path r).

Definition count_process (binary_path : string) (rules : list json) : nat :=
  length (filter (has_process binary_path) rules).

(** What lines 130-138 leave of an entry that is an object. *)
Definition enforced (entry : dict) (new_hash : string) : dict :=
  let typed :=
    if ne_str (dict_get "type" entry) "fileHash" then
      let entry := dict_set "type" (JStr "fileHash") entry in
      if dict_mem "authorIdentifier" entry
      then dict_del "authorIdentifier" entry else entry
    else entry in
  if ne_str (dict_get "codeIdentifier" typed) new_hash
  then dict_set "codeIdentifier" (JStr new_hash) typed
  else typed.

(** Lowercase hexadecimal text. *)
Definition is_lower_hex (c : ascii) : bool :=
  let n := nat_of_ascii c in
  (Nat.leb 48 n && Nat.leb n 57) || (Nat.leb 97 n && Nat.leb n 102).

Definition lower_hex (s : string) : bool :=
  forallb is_lower_hex (list_ascii_of_string s).

(** The invariant of a trust anchor: a [fileHash] entry carries a
    lowercase hexadecimal [codeIdentifier] and no [authorIdentifier]. *)
Definition anchor_ok (anchor : json) : bool :=
  match anchor with
  | JObj d =>
      if ne_str (dict_get "type" d) "fileHash" then true
      else match dict_get "codeIdentifier" d with
           | Some (JStr digest) =>
               lower_hex digest && negb (dict_mem "authorIdentifier" d)
           | _ => false
           end
  | _ => true
  end.

Definition anchors_ok (config : json) : Prop :=
  forall key anchor, requirement config key = Some anchor ->
                     anchor_ok anchor = true.

(** A document of the expected shape: an object whose code requirements,
    when present, map keys to objects and whose rules, when present, are
    a list of objects. *)
Definition is_object (v : json) : bool :=
  match v with
  | JObj _ => true
  | _ => false
  end.

Definition requirements_well_formed (d : dict) : bool :=
  match dict_get "codeRequirements" d with
  | None => true
  | Some (JObj requirements) => forallb (fun kv => is_object (snd kv))
                                  requirements
  | Some _ => false
  end.

Definition rules_well_formed (d : dict) : bool :=
  match dict_get "rules" d with
  | None => true
  | Some (JArr rules) => forallb is_object rules
  | Some _ => false
  end.

Definition well_formed (config : json) : bool :=
  match config with
  | JObj d => requirements_well_formed d && rules_well_formed d
  | _ => false
  end.

(* ===================================================================== *)
(** ** A test bench                                                       *)
(* ===================================================================== *)

(** A host in the manner of the mocks of tests/test_ls_manage.py:
    [/usr/local/bin/mosh-server] is a link into the Cellar, the store is
    an in-memory fake, the clock runs two hours ahead of UTC. *)
Module Bench.

Definition mosh_link : string := "/usr/local/bin/mosh-server".
Definition mosh_real : string := "/usr/local/Cellar/mosh/1.4.0/bin/mosh-server".
Definition mosh_key : string := "path.usr/local/Cellar/mosh/*/bin/mosh-server".
Definition brew_key : string := "path.opt/homebrew/Cellar/mosh/*/bin/mosh-server".

Definition bench_realpath (p : string) : string :=
  if String.eqb p mosh_link then mosh_real else p.

Definition bench_expanduser (p : string) : string :=
  match p with
  | String "~" rest => ("/Users/tester" ++ rest)%string
  | _ => p
  end.

Definition bench_now (n : nat) : instant :=
  {| local := {| year := 2024; month := 5; day := 17;
                 hour := 14; minute := 30; second := n |};
     utc := {| year := 2024; month := 5; day := 17;
               hour := 12; minute := 30; second := n |} |}.

(** A stand-in for the digest: 32 bytes, all equal to the first byte of
    the message. *)
Definition bench_sha256 (m : list byte) : list byte :=
  repeat (hd x00 m) 32.

(** The fake store.  [export-model] writes [exported] to its argument;
    the n-th child process, when it is a [restore-model], ends as
    [restore n] says. *)
Definition bench_spawn (exported : list byte) (restore : nat -> outcome)
  (n : nat) (args : list string) (files : fs) : outcome * fs :=
  match args with
  | [_; _; _; _; verb; file] =>
      if String.eqb verb "export-model"
      then (Exited 0 EmptyString EmptyString, write file (File exported) files)
      else if String.eqb verb "restore-model" then (restore n, files)
      else (Exited 2 EmptyString "unknown command", files)
  | _ => (Exited 2 EmptyString "usage", files)
  end.

Definition exported_text : list byte := list_byte_of_string "<exported model>".
Definition modified_text : list byte := list_byte_of_string "<modified model>".

(** The codec, restricted to the one document the fake store exports. *)
Definition bench_loads (doc : json) (text : list byte) : option json :=
  if String.eqb (string_of_list_byte text) (string_of_list_byte exported_text)
  then Some doc else None.

Definition host (doc : json) (restore : nat -> outcome) : Host :=
  {| USER := Some "tester";
     getuid := 501;
     realpath := bench_realpath;
     which := fun _ => None;
     expanduser := bench_expanduser;
     now := bench_now;
     sha256 := bench_sha256;
     json_loads := bench_loads doc;
     json_dumps := fun _ => modified_text;
     spawn := bench_spawn exported_text restore |}.

Definition restore_ok (n : nat) : outcome := Exited 0 EmptyString EmptyString.
Definition restore_exits_1 (n : nat) : outcome :=
  Exited 1 EmptyString "restore-model: invalid model".
Definition restore_not_started (n : nat) : outcome := NotStarted.
(** The second child process exits with status 3 and output that is not
    text; a later [restore-model] is accepted. *)
Definition restore_undecodable (n : nat) : outcome :=
  if Nat.eqb n 1 then Undecodable 3 else Exited 0 EmptyString EmptyString.

(** The binary under test and its link. *)
Definition binary : list byte := list_byte_of_string "real content".

Definition disk : fs :=
  fun p => if String.eqb p mosh_real || String.eqb p mosh_link
              || String.eqb p "/usr/local/bin/test"
           then Some (File binary) else None.

Definition start : World := {| files := disk; calls := []; ticks := 0 |}.

(** Documents. *)
Definition empty_model : json :=
  JObj [("codeRequirements", JObj []); ("rules", JArr [])].

Definition no_rules_model : json := JObj [("codeRequirements", JObj [])].

Definition trusted_fields : dict :=
  [("type", JStr "trustedAnchor");
   ("codeIdentifier", JStr "abc123");
   ("authorIdentifier", JStr "Developer ID")].

Definition trusted_anchor : json := JObj trusted_fields.

Definition stale_fields : dict :=
  [("type", JStr "fileHash"); ("codeIdentifier", JStr "abc123")].

Definition stale_anchor : json := JObj stale_fields.

Definition old_rule (process : string) : json :=
  JObj [("action", JStr "allow"); ("process", JStr process);
        ("ports", JStr "22")].

Definition mosh_requirements (anchor : json) : dict :=
  [("path.usr/bin/ssh", stale_anchor); (mosh_key, anchor)].

Definition mosh_fields (anchor : json) : dict :=
  [("version", JInt 3);
   ("codeRequirements", JObj (mosh_requirements anchor));
   ("rules", JArr [old_rule "/usr/bin/ssh"; old_rule mosh_link])].

Definition mosh_model (anchor : json) : json := JObj (mosh_fields anchor).

Definition two_keys_model : json :=
  JObj [("codeRequirements", JObj [(brew_key, stale_anchor);
                                   (mosh_key, stale_anchor)]);
        ("rules", JArr [])].

Definition args_of (p : string) (replace_existing : bool) : Args :=
  {| path := p; ports := "60000-61000"; protocol := "udp";
     direction := "both"; remote := "any"; replace := replace_existing |}.

(** The arguments of [test_update_rule_sets_uid_field]. *)
Definition test_args : Args :=
  {| path := "/usr/local/bin/test"; ports := "8080"; protocol := "tcp";
     direction := "outgoing"; remote := "any"; replace := false |}.

(** The bench at work on the link to mosh-server. *)
Definition bench_host : Host := host empty_model restore_ok.

Definition bench_digest : string := hex (bench_sha256 binary).

Definition run_update (replace_existing : bool) (doc : json) : result json :=
  apply_update bench_host (args_of mosh_link replace_existing) mosh_link
    mosh_real bench_digest (local (bench_now 1)) (local (bench_now 2)) doc.

Definition after (replace_existing : bool) (doc : json) : json :=
  match run_update replace_existing doc with
  | Ok doc' => doc'
  | Raise _ => JNull
  end.

Definition restore_call (u file : string) (o : outcome) : call :=
  {| argv := ["sudo"; LS_CMD; "-u"; u; "restore-model"; file]; ended := o |}.

Definition export_call (u file : string) (o : outcome) : call :=
  {| argv := ["sudo"; LS_CMD; "-u"; u; "export-model"; file]; ended := o |}.

End Bench.

Import Bench.

(* ===================================================================== *)
(** ** Reading a run                                                      *)
(* ===================================================================== *)

(** The two files of a run, named after the first reading of the clock
    (lines 109-112). *)
Definition backup_file (h : Host) (w : World) : string :=
  path_join (expanduser h "~/.ls_backups")
    ("ls_backup_" ++ strftime_compact (local (now h (ticks w))) ++ ".json").

Definition modified_file (h : Host) (w : World) : string :=
  ("/tmp/ls_modified_" ++ strftime_compact (local (now h (ticks w)))
   ++ ".json")%string.

(** A child process whose end [subprocess.run] reports by an exception
    other than [CalledProcessError]: it could not be started, or its
    output could not be decoded. *)
Definition unreported (o : outcome) : Prop :=
  o = NotStarted \/ exists code, o = Undecodable code.

(** How far a run of [update_rule] got, told from the child processes it
    started.  [backup] and [modified] are the two files of the run. *)
Definition run_shape (u backup modified : string) (r : result unit)
  (started : list call) : Prop :=
  (started = [] /\ r <> Ok tt)
  \/ (exists o, started = [export_call u backup o] /\ r <> Ok tt)
  \/ (exists out err out' err',
         started = [export_call u backup (Exited 0 out err);
                    restore_call u modified (Exited 0 out' err')]
         /\ r = Ok tt)
  \/ (exists out err code out' err',
         code <> 0%Z
         /\ started = [export_call u backup (Exited 0 out err);
                       restore_call u modified (Exited code out' err')]
         /\ r = Raise (SystemExit 1))
  \/ (exists out err o1 o e,
         unreported o1
         /\ started = [export_call u backup (Exited 0 out err);
                       restore_call u modified o1;
                       restore_call u backup o]
         /\ r = Raise e).

(** More of the bench: a host without [USER], and the two files of a run
    started at the first tick of the bench clock. *)
Definition host_without_user : Host :=
  {| USER := None;
     getuid := 501;
     realpath := bench_realpath;
     which := fun _ => None;
     expanduser := bench_expanduser;
     now := bench_now;
     sha256 := bench_sha256;
     json_loads := bench_loads empty_model;
     json_dumps := fun _ => modified_text;
     spawn := bench_spawn exported_text restore_ok |}.

Definition bench_backup : string :=
  "/Users/tester/.ls_backups/ls_backup_20240517143000.json".

Definition bench_modified : string := "/tmp/ls_modified_20240517143000.json".


(* ===================================================================== *)
(** ** Properties                                                         *)
(* ===================================================================== *)

(** *** Results and dictionaries *)

Lemma bind_ok (A B : Type) (r : result A) (k : A -> result B) (b : B) :
  bind r k = Ok b -> exists a, r = Ok a /\ k a = Ok b.
Proof.
  destruct r as [a|e]; simpl; intros E; [|discriminate].
  exists a. split; [reflexivity | exact E].
Qed.

Lemma dict_get_set_same (k : string) (v : json) (d : dict) :
  dict_get k (dict_set k v d) = Some v.
Proof.
  induction d as [|[k' v'] d IH]; simpl.
  - now rewrite String.eqb_refl.
  - destruct (String.eqb k' k) eqn:E; simpl; rewrite E; auto.
Qed.

Lemma dict_get_set_other (k k' : string) (v : json) (d : dict) :
  k' <> k -> dict_get k' (dict_set k v d) = dict_get k' d.
Proof.
  intros N. induction d as [|[k0 v0] d IH]; simpl.
  - destruct (String.eqb_spec k k'); [congruence | reflexivity].
  - destruct (String.eqb_spec k0 k) as [->|]; simpl.
    + destruct (String.eqb_spec k k'); [congruence | reflexivity].
    + now rewrite IH.
Qed.

Lemma dict_get_del_same (k : string) (d : dict) :
  dict_get k (dict_del k d) = None.
Proof.
  induction d as [|[k0 v0] d IH]; simpl; [reflexivity|].
  destruct (String.eqb k0 k) eqn:E; simpl; [exact IH | now rewrite E].
Qed.

Lemma dict_get_del_other (k k' : string) (d : dict) :
  k' <> k -> dict_get k' (dict_del k d) = dict_get k' d.
Proof.
  intros N. induction d as [|[k0 v0] d IH]; simpl; [reflexivity|].
  destruct (String.eqb_spec k0 k) as [->|]; simpl.
  - destruct (String.eqb_spec k k'); [congruence | exact IH].
  - now rewrite IH.
Qed.

(** *** get_binary_hash *)

(** The blocks fed to the hash object add up to the whole file. *)
Lemma hash_blocks_message (size : nat) (unread : list byte)
  (acc : sha256_hash) :
  0 < size ->
  message (hash_blocks size unread acc) = message acc ++ unread.
Proof.
  intros Hsize. funelim (hash_blocks size unread acc).
  - destruct size as [|size]; [lia|].
    destruct unread as [|y unread]; [|discriminate].
    now rewrite app_nil_r.
  - match goal with
    | IH : 0 < _ -> message (hash_blocks _ _ _) = _ |- _ => rewrite IH by lia
    end.
    simpl. rewrite <- app_assoc.
    match goal with E : firstn _ _ = _ |- _ => rewrite <- E end.
    now rewrite firstn_skipn.
Qed.

Lemma get_binary_hash_file (h : Host) (files : fs) (p : string)
  (content : list byte) :
  files (realpath h p) = Some (File content) ->
  get_binary_hash h files p = Ok (hex (sha256 h content)).
Proof.
  intros E. unfold get_binary_hash, read_file. rewrite E. simpl.
  unfold hexdigest. rewrite hash_blocks_message by lia. reflexivity.
Qed.

(** C5.  [get_binary_hash] returns the lowercase hexadecimal SHA-256
    digest of the whole content of the file its argument resolves to.
    Hence a second path [q] that resolves to a file with the same bytes
    has the same fingerprint, and the fingerprint of a link [p] is the
    fingerprint of its resolved target. *)
Theorem fingerprint_of_resolved_content (h : Host) (files : fs)
  (p q : string) (content : list byte)
  (Hp : files (realpath h p) = Some (File content))
  (Hq : files (realpath h q) = Some (File content))
  (Hresolved : realpath h (realpath h p) = realpath h p) :
  get_binary_hash h files p = Ok (hex (sha256 h content))
  /\ get_binary_hash h files q = get_binary_hash h files p
  /\ get_binary_hash h files (realpath h p) = get_binary_hash h files p.
Proof.
  rewrite (get_binary_hash_file h files p content Hp).
  rewrite (get_binary_hash_file h files q content Hq).
  repeat split.
  apply get_binary_hash_file. now rewrite Hresolved.
Qed.

Lemma fingerprint_of_resolved_content_witness :
  get_binary_hash (host empty_model restore_ok) disk mosh_link
    = Ok (hex (bench_sha256 binary))
  /\ get_binary_hash (host empty_model restore_ok) disk "/usr/local/bin/test"
     = get_binary_hash (host empty_model restore_ok) disk mosh_link
  /\ get_binary_hash (host empty_model restore_ok) disk mosh_real
     = get_binary_hash (host empty_model restore_ok) disk mosh_link.
Proof.
  apply (@fingerprint_of_resolved_content (host empty_model restore_ok) disk
           mosh_link "/usr/local/bin/test" binary);
    reflexivity.
Defined.

(** *** find_code_requirement_key *)

Lemma first_match_keys (package_name relative_path : string)
  (before after : dict) (key : string) (v : json) :
  (forall k, In k (dict_keys before) ->
             contains package_name k && contains relative_path k = false) ->
  contains package_name key = true ->
  contains relative_path key = true ->
  first_match package_name relative_path
    (map JStr (dict_keys (before ++ (key, v) :: after)))
  = Ok (Some (JStr key)).
Proof.
  intros Hbefore Hname Hpath.
  induction before as [|[k0 v0] before IH]; simpl.
  - now rewrite Hname, Hpath.
  - assert (H0 : contains package_name k0 && contains relative_path k0 = false)
      by (apply Hbefore; simpl; auto).
    assert (IH' := IH (fun k Hk => Hbefore k (or_intror Hk))).
    destruct (contains package_name k0); simpl in *.
    + rewrite H0. exact IH'.
    + exact IH'.
Qed.

Lemma no_cellar_no_key (h : Host) (config : json) (binary_path : string) :
  contains "Cellar" (realpath h binary_path) = false
  \/ index "Cellar" (split "/" (realpath h binary_path)) = None ->
  find_code_requirement_key h config binary_path = Ok None.
Proof.
  unfold find_code_requirement_key.
  intros [E|E].
  - now rewrite E.
  - rewrite E. now destruct (contains _ _).
Qed.

(** C6 (as amended).  For a path whose resolved form has no [Cellar]
    component, [find_code_requirement_key] returns [None] whatever the
    model holds.  For a path resolving to
    [/usr/local/Cellar/mosh/1.4.0/bin/mosh-server] and a model whose code
    requirements contain the key
    [path.usr/local/Cellar/mosh/*/bin/mosh-server], it returns that key
    provided no key placed before it contains both [mosh] and
    [bin/mosh-server]: the search stops at the first such key. *)
Theorem anchor_key_first_match (h : Host) (q p : string) (config : json)
  (before after : dict) (anchor : json)
  (Hq : contains "Cellar" (realpath h q) = false
        \/ index "Cellar" (split "/" (realpath h q)) = None)
  (Hp : realpath h p = "/usr/local/Cellar/mosh/1.4.0/bin/mosh-server")
  (Hreqs : field config "codeRequirements"
           = Some (JObj (before
                         ++ ("path.usr/local/Cellar/mosh/*/bin/mosh-server",
                             anchor) :: after)))
  (Hfirst : forall k, In k (dict_keys before) ->
              contains "mosh" k && contains "bin/mosh-server" k = false) :
  (forall model, find_code_requirement_key h model q = Ok None)
  /\ find_code_requirement_key h config p
     = Ok (Some (JStr "path.usr/local/Cellar/mosh/*/bin/mosh-server")).
Proof.
  split.
  - intros model. now apply no_cellar_no_key.
  - unfold find_code_requirement_key. rewrite Hp.
    change (contains "Cellar" "/usr/local/Cellar/mosh/1.4.0/bin/mosh-server")
      with true.
    cbv iota.
    change (split "/" "/usr/local/Cellar/mosh/1.4.0/bin/mosh-server")
      with [""; "usr"; "local"; "Cellar"; "mosh"; "1.4.0"; "bin";
            "mosh-server"].
    change (index "Cellar" [""; "usr"; "local"; "Cellar"; "mosh"; "1.4.0";
                            "bin"; "mosh-server"]) with (Some 3).
    cbv beta iota.
    change (nth_error [""; "usr"; "local"; "Cellar"; "mosh"; "1.4.0"; "bin";
                       "mosh-server"] (3 + 1)) with (Some "mosh").
    cbv beta iota zeta.
    change (join "/" (skipn (3 + 3) [""; "usr"; "local"; "Cellar"; "mosh";
                                     "1.4.0"; "bin"; "mosh-server"]))
      with "bin/mosh-server".
    destruct config as [| | | | | |d]; try discriminate.
    simpl in Hreqs. unfold get_default. rewrite Hreqs. simpl.
    apply first_match_keys; [exact Hfirst | reflexivity | reflexivity].
Qed.

Lemma anchor_key_first_match_witness :
  (forall model,
      find_code_requirement_key (host empty_model restore_ok) model
        "/usr/local/bin/example" = Ok None)
  /\ find_code_requirement_key (host empty_model restore_ok)
       (mosh_model trusted_anchor) mosh_link
     = Ok (Some (JStr mosh_key)).
Proof.
  apply (@anchor_key_first_match (host empty_model restore_ok)
           "/usr/local/bin/example" mosh_link (mosh_model trusted_anchor)
           [("path.usr/bin/ssh", stale_anchor)] [] trusted_anchor).
  - left. reflexivity.
  - reflexivity.
  - reflexivity.
  - intros k [<-|[]]. reflexivity.
Defined.

(** C6, as first stated, fails: a model can hold the expected key and an
    earlier key that matches as well; the earlier one is returned. *)
Lemma anchor_key_not_always_that_key :
  ~ (forall (h : Host) (config : json) (p : string),
        realpath h p = "/usr/local/Cellar/mosh/1.4.0/bin/mosh-server" ->
        dict_mem "path.usr/local/Cellar/mosh/*/bin/mosh-server"
          (requirements_of config) = true ->
        find_code_requirement_key h config p
        = Ok (Some (JStr "path.usr/local/Cellar/mosh/*/bin/mosh-server"))).
Proof.
  intros claim.
  specialize (claim (host empty_model restore_ok) two_keys_model mosh_link
                eq_refl eq_refl).
  vm_compute in claim. discriminate claim.
Qed.

(** *** update_rule, part 1 *)

Lemma enforce_file_hash_object (entry : dict) (new_hash : string) :
  enforce_file_hash (JObj entry) new_hash = Ok (JObj (enforced entry new_hash)).
Proof.
  unfold enforce_file_hash, enforced. simpl.
  destruct (ne_str (dict_get "type" entry) "fileHash"); simpl.
  - unfold delitem.
    destruct (dict_mem "authorIdentifier"
                (dict_set "type" (JStr "fileHash") entry)); simpl;
      match goal with |- context [ne_str ?x new_hash] =>
        destruct (ne_str x new_hash) end; reflexivity.
  - destruct (ne_str (dict_get "codeIdentifier" entry) new_hash); reflexivity.
Qed.

Lemma enforce_file_hash_ok (current_cr entry : json) (new_hash : string) :
  enforce_file_hash current_cr new_hash = Ok entry ->
  exists d, current_cr = JObj d /\ entry = JObj (enforced d new_hash).
Proof.
  destruct current_cr as [| | | | | |d]; try discriminate.
  rewrite enforce_file_hash_object. intros E. inversion E. eauto.
Qed.

Lemma ne_str_false (x : option json) (s : string) :
  ne_str x s = false -> x = Some (JStr s).
Proof.
  destruct x as [[| | | |t| |]|]; simpl; try discriminate.
  destruct (String.eqb_spec t s); [now subst | discriminate].
Qed.

Lemma enforced_identifier (entry : dict) (new_hash : string) :
  dict_get "codeIdentifier" (enforced entry new_hash) = Some (JStr new_hash).
Proof.
  unfold enforced.
  match goal with |- context [ne_str (dict_get "codeIdentifier" ?t) _] =>
    set (typed := t) end.
  destruct (ne_str (dict_get "codeIdentifier" typed) new_hash) eqn:E.
  - apply dict_get_set_same.
  - now apply ne_str_false.
Qed.

Lemma enforced_type (entry : dict) (new_hash : string) :
  dict_get "type" (enforced entry new_hash) = Some (JStr "fileHash").
Proof.
  unfold enforced.
  assert (T : forall typed,
             dict_get "type" typed = Some (JStr "fileHash") ->
             dict_get "type"
               (if ne_str (dict_get "codeIdentifier" typed) new_hash
                then dict_set "codeIdentifier" (JStr new_hash) typed
                else typed) = Some (JStr "fileHash")).
  { intros typed H.
    destruct (ne_str _ new_hash); [|exact H].
    rewrite dict_get_set_other by discriminate. exact H. }
  apply T.
  destruct (ne_str (dict_get "type" entry) "fileHash") eqn:E.
  - destruct (dict_mem _ _).
    + rewrite dict_get_del_other by discriminate. apply dict_get_set_same.
    + apply dict_get_set_same.
  - now apply ne_str_false.
Qed.

(** An entry that was not of type [fileHash] loses its author. *)
Lemma enforced_author_removed (entry : dict) (new_hash : string) :
  ne_str (dict_get "type" entry) "fileHash" = true ->
  dict_get "authorIdentifier" (enforced entry new_hash) = None.
Proof.
  intros E. unfold enforced. rewrite E.
  match goal with |- context [ne_str (dict_get "codeIdentifier" ?t) _] =>
    set (typed := t) end.
  assert (A : dict_get "authorIdentifier" typed = None).
  { subst typed. unfold dict_mem.
    destruct (dict_get "authorIdentifier"
                (dict_set "type" (JStr "fileHash") entry)) eqn:G.
    - apply dict_get_del_same.
    - exact G. }
  destruct (ne_str _ new_hash); [|exact A].
  rewrite dict_get_set_other by discriminate. exact A.
Qed.

(** An entry of type [fileHash] keeps every field but its identifier. *)
Lemma enforced_file_hash (entry : dict) (new_hash f : string) :
  ne_str (dict_get "type" entry) "fileHash" = false ->
  f <> "codeIdentifier" ->
  dict_get f (enforced entry new_hash) = dict_get f entry.
Proof.
  intros E N. unfold enforced. rewrite E.
  destruct (ne_str _ new_hash); [|reflexivity].
  now rewrite dict_get_set_other.
Qed.

Lemma create_requirement_ok (config config' : json)
  (resolved_path new_hash : string) :
  create_requirement config resolved_path new_hash = Ok config' ->
  exists d d',
    config = JObj d /\ config' = JObj d'
    /\ dict_get "codeRequirements" d'
       = Some (JObj (dict_set resolved_path (file_hash new_hash)
                       (requirements_of config)))
    /\ (forall f, f <> "codeRequirements" -> dict_get f d' = dict_get f d).
Proof.
  unfold create_requirement.
  destruct config as [| | | |s|items|d]; try discriminate.
  - simpl. destruct (contains _ s); discriminate.
  - simpl. destruct (existsb _ items); discriminate.
  - unfold requirements_of, field, str_in, dict_mem.
    destruct (dict_get "codeRequirements" d) as [x|] eqn:G; simpl.
    + rewrite G. simpl.
      destruct x as [| | | |s|items|r]; try discriminate. simpl.
      intros E. inversion E. exists d. eexists. repeat split.
      * apply dict_get_set_same.
      * intros f N. now rewrite dict_get_set_other.
    + rewrite dict_get_set_same. simpl.
      intros E. inversion E. exists d. eexists. repeat split.
      * apply dict_get_set_same.
      * intros f N. now rewrite !dict_get_set_other.
Qed.

Lemma fix_requirement_ok (config config' cr_key : json) (new_hash : string) :
  as_index cr_key = None ->
  fix_requirement config cr_key new_hash = Ok config' ->
  exists d r k entry,
    config = JObj d /\ cr_key = JStr k
    /\ dict_get "codeRequirements" d = Some (JObj r)
    /\ dict_get k r = Some (JObj entry)
    /\ config' = JObj (dict_set "codeRequirements"
                         (JObj (dict_set k (JObj (enforced entry new_hash)) r))
                         d).
Proof.
  intros Hkey. unfold fix_requirement.
  destruct config as [| | | |s|items|d]; try discriminate.
  simpl. destruct (dict_get "codeRequirements" d) as [x|] eqn:G;
    [|discriminate].
  simpl. destruct x as [| | | |s|items|r]; try discriminate.
  - simpl. rewrite Hkey. discriminate.
  - simpl. rewrite Hkey. discriminate.
  - destruct cr_key as [| | | |k| |]; try discriminate.
    simpl. destruct (dict_get k r) as [cur|] eqn:Gk; [|discriminate].
    simpl. intros E.
    apply bind_ok in E. destruct E as (entry & E1 & E2).
    apply enforce_file_hash_ok in E1. destruct E1 as (old & -> & ->).
    simpl in E2. inversion E2.
    exists d, r, k, old. repeat split; assumption.
Qed.

Lemma fix_requirement_object (d r entry : dict) (k new_hash : string) :
  dict_get "codeRequirements" d = Some (JObj r) ->
  dict_get k r = Some (JObj entry) ->
  fix_requirement (JObj d) (JStr k) new_hash
  = Ok (JObj (dict_set "codeRequirements"
                (JObj (dict_set k (JObj (enforced entry new_hash)) r)) d)).
Proof.
  intros G Gk. unfold fix_requirement. simpl. rewrite G. simpl.
  rewrite Gk. simpl. rewrite enforce_file_hash_object. reflexivity.
Qed.

(** A key handed out by the search is a [str], a [list] or a [dict]. *)
Lemma first_match_key (package_name relative_path : string)
  (keys : list json) (key : json) :
  first_match package_name relative_path keys = Ok (Some key) ->
  as_index key = None.
Proof.
  induction keys as [|k keys IH]; simpl; [discriminate|].
  destruct (str_in package_name k) as [[|]|] eqn:E1; simpl; try discriminate;
    [|exact IH].
  destruct (str_in relative_path k) as [[|]|] eqn:E2; simpl; try discriminate;
    [|exact IH].
  intros E. inversion E. subst.
  destruct key; simpl in *; try discriminate; reflexivity.
Qed.

Lemma find_code_requirement_key_key (h : Host) (config : json)
  (binary_path : string) (key : json) :
  find_code_requirement_key h config binary_path = Ok (Some key) ->
  as_index key = None.
Proof.
  unfold find_code_requirement_key.
  destruct (contains _ _); [|discriminate].
  destruct (index _ _) as [i|]; [|discriminate].
  destruct (nth_error _ _) as [package_name|]; [|discriminate].
  intros E. apply bind_ok in E. destruct E as (reqs & _ & E).
  apply bind_ok in E. destruct E as (keys & _ & E).
  eapply first_match_key; eauto.
Qed.

Lemma first_match_sound (package_name relative_path : string)
  (keys : list json) (key : json) :
  first_match package_name relative_path keys = Ok (Some key) ->
  str_in package_name key = Ok true /\ str_in relative_path key = Ok true.
Proof.
  induction keys as [|k keys IH]; simpl; [discriminate|].
  destruct (str_in package_name k) as [[|]|] eqn:E1; simpl; try discriminate;
    [|exact IH].
  destruct (str_in relative_path k) as [[|]|] eqn:E2; simpl; try discriminate;
    [|exact IH].
  intros E. inversion E. subst. auto.
Qed.

(** [if cr_key:] only sets a key aside when it is empty, and the search
    returns an empty key only when the component after [Cellar] is empty,
    which does not happen in a path made by [os.path.realpath]. *)
Lemma empty_key_empty_package (h : Host) (config : json)
  (binary_path : string) :
  find_code_requirement_key h config binary_path
  = Ok (Some (JStr EmptyString)) ->
  exists i,
    index "Cellar" (split "/" (realpath h binary_path)) = Some i
    /\ nth_error (split "/" (realpath h binary_path)) (i + 1)
       = Some EmptyString.
Proof.
  unfold find_code_requirement_key.
  destruct (contains _ _); [|discriminate].
  destruct (index _ _) as [i|]; [|discriminate].
  destruct (nth_error _ _) as [package_name|] eqn:N; [|discriminate].
  intros E. apply bind_ok in E. destruct E as (reqs & _ & E).
  apply bind_ok in E. destruct E as (keys & _ & E).
  apply first_match_sound in E. destruct E as [E _].
  exists i. split; [reflexivity|].
  destruct package_name as [|c rest]; [exact N | discriminate E].
Qed.

(** What part 1 does to a document, when it goes through: one entry of
    the code requirements is set, either a fresh [fileHash] entry under
    the resolved path or the normalised form of an existing entry. *)
Lemma update_code_requirements_ok (h : Host) (config config' : json)
  (binary_path resolved_path new_hash : string) :
  update_code_requirements h config binary_path resolved_path new_hash
  = Ok config' ->
  exists d d' key entry,
    config = JObj d /\ config' = JObj d'
    /\ dict_get "codeRequirements" d'
       = Some (JObj (dict_set key entry (requirements_of config)))
    /\ (forall f, f <> "codeRequirements" -> dict_get f d' = dict_get f d)
    /\ ((key = resolved_path /\ entry = file_hash new_hash)
        \/ (exists old, requirement config key = Some (JObj old)
                        /\ entry = JObj (enforced old new_hash))).
Proof.
  unfold update_code_requirements. intros E.
  apply bind_ok in E. destruct E as (cr_key & Efind & E).
  assert (Hcreate :
            create_requirement config resolved_path new_hash = Ok config' ->
            exists d d' key entry,
              config = JObj d /\ config' = JObj d'
              /\ dict_get "codeRequirements" d'
                 = Some (JObj (dict_set key entry (requirements_of config)))
              /\ (forall f, f <> "codeRequirements" ->
                            dict_get f d' = dict_get f d)
              /\ ((key = resolved_path /\ entry = file_hash new_hash)
                  \/ (exists old, requirement config key = Some (JObj old)
                                  /\ entry = JObj (enforced old new_hash)))).
  { intros C. apply create_requirement_ok in C.
    destruct C as (d & d' & -> & -> & G & F).
    exists d, d', resolved_path, (file_hash new_hash).
    repeat split; auto. }
  destruct cr_key as [key|]; [|auto].
  destruct (truthy key); [|auto].
  apply fix_requirement_ok in E;
    [|eapply find_code_requirement_key_key; eauto].
  destruct E as (d & r & k & old & -> & -> & G & Gk & ->).
  exists d. eexists. exists k, (JObj (enforced old new_hash)).
  repeat split.
  - rewrite dict_get_set_same. unfold requirements_of, field. now rewrite G.
  - intros f N. now rewrite dict_get_set_other.
  - right. exists old. unfold requirement, requirements_of, field.
    rewrite G. auto.
Qed.

(** *** update_rule, part 2 *)

Lemma differs_object (binary_path : string) (d : dict) :
  differs binary_path (JObj d) = ne_str (dict_get "process" d) binary_path.
Proof. unfold differs. simpl. apply negb_involutive. Qed.

Lemma other_rules_ok (binary_path : string) (items kept : list json) :
  other_rules binary_path items = Ok kept ->
  kept = filter (differs binary_path) items /\ forallb is_object items = true.
Proof.
  revert kept. induction items as [|r items IH]; simpl; intros kept E.
  - inversion E. auto.
  - destruct r as [| | | | | |d]; try discriminate. simpl in E.
    apply bind_ok in E. destruct E as (kept' & E1 & E2).
    destruct (IH _ E1) as [-> Hobj]. inversion E2. split; [|exact Hobj].
    now rewrite differs_object.
Qed.

Lemma other_rules_objects (binary_path : string) (items : list json) :
  forallb is_object items = true ->
  other_rules binary_path items = Ok (filter (differs binary_path) items).
Proof.
  induction items as [|r items IH]; simpl; [reflexivity|].
  intros H. apply andb_prop in H. destruct H as [Hr Hitems].
  destruct r as [| | | | | |d]; try discriminate. simpl.
  rewrite (IH Hitems). simpl.
  now rewrite differs_object.
Qed.

(** The list comprehension only goes through on a list of objects, or on
    something that yields nothing. *)
Lemma comprehension_ok (binary_path : string) (rules : json)
  (items kept : list json) :
  iter rules = Ok items ->
  other_rules binary_path items = Ok kept ->
  kept = filter (differs binary_path)
           (match rules with JArr l => l | _ => [] end).
Proof.
  intros Hiter Hkept. apply other_rules_ok in Hkept.
  destruct Hkept as [-> Hobj].
  destruct rules as [| | | |s|l|fs]; try discriminate;
    simpl in Hiter; inversion Hiter; subst; clear Hiter.
  - destruct s; [reflexivity | discriminate].
  - reflexivity.
  - destruct fs; [reflexivity | discriminate].
Qed.

Lemma rules_step_ok (d : dict) (rule config' : json) (binary_path : string)
  (replace_existing : bool) :
  (rules <- get_default (JObj d) "rules" (JArr []) ;;
   add_rule (JObj d) rules rule binary_path replace_existing) = Ok config' ->
  exists d',
    config' = JObj d'
    /\ dict_get "rules" d'
       = Some (JArr ((if replace_existing
                      then filter (differs binary_path) (rules_of (JObj d))
                      else rules_of (JObj d)) ++ [rule]))
    /\ (forall f, f <> "rules" -> dict_get f d' = dict_get f d).
Proof.
  unfold add_rule, rules_of, field. simpl.
  destruct replace_existing.
  - intros E. apply bind_ok in E. destruct E as (cfg & E1 & E2).
    apply bind_ok in E1. destruct E1 as (items & Hiter & E1).
    apply bind_ok in E1. destruct E1 as (kept & Hkept & E1).
    simpl in E1. inversion E1. subst cfg. clear E1.
    simpl in E2. rewrite dict_get_set_same in E2. simpl in E2.
    inversion E2. clear E2.
    pose proof (comprehension_ok _ _ _ _ Hiter Hkept) as ->.
    eexists. repeat split.
    + rewrite dict_get_set_same.
      destruct (dict_get "rules" d) as [[| | | | | |]|]; reflexivity.
    + intros f N. now rewrite !dict_get_set_other.
  - simpl. destruct (dict_get "rules" d) as [x|]; [|discriminate].
    simpl. destruct x as [| | | | |old|]; try discriminate. simpl.
    intros E. inversion E. eexists. repeat split.
    + apply dict_get_set_same.
    + intros f N. now rewrite dict_get_set_other.
Qed.

(** The whole edit, when it goes through. *)
Lemma apply_update_ok (h : Host) (args : Args)
  (binary_path resolved_path new_hash : string) (created modified : datetime)
  (config config' : json) :
  apply_update h args binary_path resolved_path new_hash created modified
    config = Ok config' ->
  exists config1,
    update_code_requirements h config binary_path resolved_path new_hash
    = Ok config1
    /\ rules_of config'
       = (if replace args
          then filter (differs binary_path) (rules_of config)
          else rules_of config)
         ++ [new_rule args binary_path created modified]
    /\ (forall f, f <> "rules" -> field config' f = field config1 f)
    /\ (forall f, f <> "codeRequirements" -> field config1 f = field config f).
Proof.
  unfold apply_update. intros E.
  apply bind_ok in E. destruct E as (config1 & E1 & E2).
  exists config1. split; [exact E1|].
  apply update_code_requirements_ok in E1.
  destruct E1 as (d & d1 & key & entry & -> & -> & _ & F1 & _).
  apply rules_step_ok in E2. destruct E2 as (d' & -> & G & F2).
  assert (R : rules_of (JObj d1) = rules_of (JObj d)).
  { unfold rules_of, field. now rewrite F1 by discriminate. }
  repeat split.
  - unfold rules_of at 1, field at 1. rewrite G, R. reflexivity.
  - exact F2.
  - exact F1.
Qed.

(** The edit as [update_rule] runs it is [apply_update] at the next two
    readings of the clock. *)
Lemma edit_apply_update (h : Host) (args : Args)
  (binary_path resolved_path new_hash : string) (config : json) (w : World) :
  fst (edit h args binary_path resolved_path new_hash config w)
  = apply_update h args binary_path resolved_path new_hash
      (local (now h (ticks w))) (local (now h (S (ticks w)))) config.
Proof.
  unfold edit, apply_update, seq, lift.
  destruct (update_code_requirements h config binary_path resolved_path
              new_hash) as [config1|e]; simpl; [|reflexivity].
  destruct (get_default config1 "rules" (JArr [])) as [rules|e]; simpl;
    reflexivity.
Qed.

(** *** Counting the rules of a process *)

Lemma has_process_new_rule (args : Args) (binary_path : string)
  (created modified : datetime) :
  has_process binary_path (new_rule args binary_path created modified) = true.
Proof. simpl. now rewrite String.eqb_refl. Qed.

Lemma count_process_app (binary_path : string) (l1 l2 : list json) :
  count_process binary_path (l1 ++ l2)
  = count_process binary_path l1 + count_process binary_path l2.
Proof. unfold count_process. now rewrite filter_app, length_app. Qed.

Lemma count_process_others (binary_path : string) (l : list json) :
  count_process binary_path (filter (differs binary_path) l) = 0.
Proof.
  unfold count_process, differs.
  induction l as [|r l IH]; simpl; [reflexivity|].
  destruct (has_process binary_path r) eqn:E; simpl; [exact IH|].
  now rewrite E.
Qed.

Lemma filter_differs_idem (binary_path : string) (l : list json) :
  filter (differs binary_path) (filter (differs binary_path) l)
  = filter (differs binary_path) l.
Proof.
  induction l as [|r l IH]; simpl; [reflexivity|].
  destruct (differs binary_path r) eqn:E; simpl; [|exact IH].
  now rewrite E, IH.
Qed.

(** C4.  After the edit the rules are the former rules followed by the
    new rule, where with [--replace] the former rules whose [process] is
    the given path have been taken out first.  So with [--replace]
    exactly one rule has that process afterwards, and without it there
    is one more such rule than before (two when there was one). *)
Theorem replace_or_append (h : Host) (args : Args)
  (binary_path resolved_path new_hash : string) (created modified : datetime)
  (config config' : json)
  (Hrun : apply_update h args binary_path resolved_path new_hash created
            modified config = Ok config') :
  rules_of config'
  = (if replace args
     then filter (differs binary_path) (rules_of config)
     else rules_of config)
    ++ [new_rule args binary_path created modified]
  /\ (replace args = true ->
      count_process binary_path (rules_of config') = 1)
  /\ (replace args = false ->
      count_process binary_path (rules_of config')
      = S (count_process binary_path (rules_of config))).
Proof.
  apply apply_update_ok in Hrun.
  destruct Hrun as (config1 & _ & R & _).
  split; [exact R|].
  rewrite R, count_process_app.
  assert (N : count_process binary_path
                [new_rule args binary_path created modified] = 1).
  { unfold count_process. simpl. now rewrite String.eqb_refl. }
  rewrite N. split; intros ->.
  - now rewrite count_process_others.
  - lia.
Qed.

Lemma replace_or_append_witness :
  run_update true (mosh_model trusted_anchor)
    = Ok (after true (mosh_model trusted_anchor))
  /\ count_process mosh_link (rules_of (after true (mosh_model trusted_anchor)))
     = 1
  /\ count_process mosh_link
       (rules_of (after false (mosh_model trusted_anchor))) = 2.
Proof.
  assert (Hreplace : run_update true (mosh_model trusted_anchor)
                     = Ok (after true (mosh_model trusted_anchor)))
    by reflexivity.
  assert (Happend : run_update false (mosh_model trusted_anchor)
                    = Ok (after false (mosh_model trusted_anchor)))
    by reflexivity.
  split; [exact Hreplace|]. split.
  - exact (proj1 (proj2 (replace_or_append _ _ _ _ _ _ _ _ _ Hreplace)) eq_refl).
  - exact (proj2 (proj2 (replace_or_append _ _ _ _ _ _ _ _ _ Happend)) eq_refl).
Defined.

(** *** What the edit leaves alone *)

Lemma apply_update_requirements (h : Host) (args : Args)
  (binary_path resolved_path new_hash : string) (created modified : datetime)
  (config config' : json) :
  apply_update h args binary_path resolved_path new_hash created modified
    config = Ok config' ->
  exists key entry,
    requirements_of config' = dict_set key entry (requirements_of config)
    /\ ((key = resolved_path /\ entry = file_hash new_hash)
        \/ (exists old, requirement config key = Some (JObj old)
                        /\ entry = JObj (enforced old new_hash))).
Proof.
  intros Hrun. apply apply_update_ok in Hrun.
  destruct Hrun as (config1 & Hstep & _ & F & _).
  apply update_code_requirements_ok in Hstep.
  destruct Hstep as (d & d1 & key & entry & -> & -> & G & _ & Hentry).
  exists key, entry. split; [|exact Hentry].
  unfold requirements_of at 1. rewrite F by discriminate.
  simpl. now rewrite G.
Qed.

(** Which key part 1 writes, and what it writes there: when the search
    returns a key that counts as true, the normalised form of the entry
    under that key; otherwise a fresh [fileHash] entry under the resolved
    path. *)
Lemma update_code_requirements_key (h : Host) (config config1 : json)
  (binary_path resolved_path new_hash : string) :
  update_code_requirements h config binary_path resolved_path new_hash
  = Ok config1 ->
  exists key entry,
    match find_code_requirement_key h config binary_path with
    | Ok (Some cr_key) =>
        if truthy cr_key
        then cr_key = JStr key
             /\ exists old, requirement config key = Some (JObj old)
                            /\ entry = JObj (enforced old new_hash)
        else key = resolved_path /\ entry = file_hash new_hash
    | Ok None => key = resolved_path /\ entry = file_hash new_hash
    | Raise _ => False
    end
    /\ requirements_of config1 = dict_set key entry (requirements_of config).
Proof.
  unfold update_code_requirements. intros E.
  apply bind_ok in E. destruct E as (cr_key & Efind & E).
  rewrite Efind.
  assert (Hcreate :
            create_requirement config resolved_path new_hash = Ok config1 ->
            requirements_of config1
            = dict_set resolved_path (file_hash new_hash)
                (requirements_of config)).
  { intros C. apply create_requirement_ok in C.
    destruct C as (d & d' & -> & -> & G & _).
    unfold requirements_of at 1, field. now rewrite G. }
  destruct cr_key as [cr_key|].
  - destruct (truthy cr_key).
    + apply fix_requirement_ok in E;
        [|eapply find_code_requirement_key_key; eauto].
      destruct E as (d & r & k & old & -> & -> & G & Gk & ->).
      exists k, (JObj (enforced old new_hash)).
      assert (R : requirements_of (JObj d) = r)
        by (unfold requirements_of, field; now rewrite G).
      split.
      * split; [reflexivity|]. exists old. unfold requirement.
        rewrite R. auto.
      * rewrite R. unfold requirements_of, field.
        now rewrite dict_get_set_same.
    + exists resolved_path, (file_hash new_hash). auto.
  - exists resolved_path, (file_hash new_hash). auto.
Qed.

(** C10.  The edit leaves in place, unchanged and in their order, all
    rules whose [process] is not the given path; the new rule is the
    last of the rules.  Of the code requirements exactly one key is
    written: the key the search returned, when it returned one that
    counts as true, and the entry there is the normalised form of the
    entry that was there; the resolved path otherwise, with a fresh
    [fileHash] entry.  The entries under all other keys are as they were,
    and so is the order of the keys.  Every other top-level field of the
    document is as it was. *)
Theorem apply_update_frame (h : Host) (args : Args)
  (binary_path resolved_path new_hash : string) (created modified : datetime)
  (config config' : json)
  (Hrun : apply_update h args binary_path resolved_path new_hash created
            modified config = Ok config') :
  filter (differs binary_path) (rules_of config')
  = filter (differs binary_path) (rules_of config)
  /\ (exists kept,
         rules_of config'
         = kept ++ [new_rule args binary_path created modified]
         /\ kept = if replace args
                   then filter (differs binary_path) (rules_of config)
                   else rules_of config)
  /\ (exists key entry,
         match find_code_requirement_key h config binary_path with
         | Ok (Some cr_key) =>
             if truthy cr_key
             then cr_key = JStr key
                  /\ exists old, requirement config key = Some (JObj old)
                                 /\ entry = JObj (enforced old new_hash)
             else key = resolved_path /\ entry = file_hash new_hash
         | Ok None => key = resolved_path /\ entry = file_hash new_hash
         | Raise _ => False
         end
         /\ requirements_of config'
            = dict_set key entry (requirements_of config)
         /\ requirement config' key = Some entry
         /\ forall k, k <> key ->
                      requirement config' k = requirement config k)
  /\ (forall f, f <> "rules" -> f <> "codeRequirements" ->
                field config' f = field config f).
Proof.
  apply apply_update_ok in Hrun.
  destruct Hrun as (config1 & Hstep & R & F2 & F1).
  apply update_code_requirements_key in Hstep.
  destruct Hstep as (key & entry & Hkey & Hreqs1).
  assert (Hreqs : requirements_of config'
                  = dict_set key entry (requirements_of config)).
  { rewrite <- Hreqs1. unfold requirements_of.
    now rewrite F2 by discriminate. }
  split; [|split; [|split]].
  - rewrite R, filter_app. simpl.
    assert (D : differs binary_path
                  (new_rule args binary_path created modified) = false)
      by (unfold differs; now rewrite has_process_new_rule).
    rewrite D, app_nil_r.
    destruct (replace args); [apply filter_differs_idem | reflexivity].
  - eexists. split; [exact R | reflexivity].
  - exists key, entry. split; [exact Hkey|]. split; [exact Hreqs|]. split.
    + unfold requirement. rewrite Hreqs. apply dict_get_set_same.
    + intros k N. unfold requirement. rewrite Hreqs.
      now apply dict_get_set_other.
  - intros f N1 N2. now rewrite F2, F1.
Qed.

Lemma apply_update_frame_witness :
  run_update true (mosh_model trusted_anchor)
    = Ok (after true (mosh_model trusted_anchor))
  /\ filter (differs mosh_link)
       (rules_of (after true (mosh_model trusted_anchor)))
     = [old_rule "/usr/bin/ssh"]
  /\ requirements_of (after true (mosh_model trusted_anchor))
     = [("path.usr/bin/ssh", stale_anchor);
        (mosh_key, file_hash bench_digest)]
  /\ requirement (after true (mosh_model trusted_anchor)) "path.usr/bin/ssh"
     = Some stale_anchor
  /\ field (after true (mosh_model trusted_anchor)) "version" = Some (JInt 3).
Proof.
  assert (Hrun : run_update true (mosh_model trusted_anchor)
                 = Ok (after true (mosh_model trusted_anchor)))
    by reflexivity.
  destruct (apply_update_frame _ _ _ _ _ _ _ _ _ Hrun)
    as (Hrules & _ & (key & entry & Hkey & Hreqs & _ & Hother) & Hfields).
  change (find_code_requirement_key bench_host (mosh_model trusted_anchor)
            mosh_link)
    with (@Ok (option json) (Some (JStr mosh_key))) in Hkey.
  cbv beta iota in Hkey.
  change (truthy (JStr mosh_key)) with true in Hkey.
  destruct Hkey as (Ekey & old & Hold & Hentry).
  inversion Ekey. subst key.
  change (requirement (mosh_model trusted_anchor) mosh_key)
    with (Some (JObj trusted_fields)) in Hold.
  inversion Hold. subst old entry.
  split; [exact Hrun|]. split; [|split; [|split]].
  - rewrite Hrules. reflexivity.
  - rewrite Hreqs. reflexivity.
  - rewrite Hother by discriminate. reflexivity.
  - rewrite Hfields by discriminate. reflexivity.
Defined.

(** *** The entry under the key that was found *)

(** C7.  When the search returns a key and the entry under it is of type
    [trustedAnchor], the edit leaves under that key an entry of type
    [fileHash] whose [codeIdentifier] is the digest and which has no
    [authorIdentifier]; when the entry is of type [fileHash] already,
    its [codeIdentifier] becomes the digest and nothing else in it
    changes.  Part 1 of the edit always goes through on such a document,
    and part 2 does not touch the entry. *)
Theorem anchor_normalised (h : Host) (args : Args)
  (binary_path resolved_path new_hash : string) (created modified : datetime)
  (d r entry : dict) (key : string)
  (Hfind : find_code_requirement_key h (JObj d) binary_path
           = Ok (Some (JStr key)))
  (Hkey : key <> EmptyString)
  (Hreqs : dict_get "codeRequirements" d = Some (JObj r))
  (Hentry : dict_get key r = Some (JObj entry)) :
  exists config1 entry',
    update_code_requirements h (JObj d) binary_path resolved_path new_hash
    = Ok config1
    /\ requirement config1 key = Some (JObj entry')
    /\ (forall config',
           apply_update h args binary_path resolved_path new_hash created
             modified (JObj d) = Ok config' ->
           requirement config' key = Some (JObj entry'))
    /\ dict_get "type" entry' = Some (JStr "fileHash")
    /\ dict_get "codeIdentifier" entry' = Some (JStr new_hash)
    /\ (dict_get "type" entry = Some (JStr "trustedAnchor") ->
        dict_get "authorIdentifier" entry' = None)
    /\ (dict_get "type" entry = Some (JStr "fileHash") ->
        forall f, f <> "codeIdentifier" ->
                  dict_get f entry' = dict_get f entry).
Proof.
  assert (Hstep :
            update_code_requirements h (JObj d) binary_path resolved_path
              new_hash
            = Ok (JObj (dict_set "codeRequirements"
                          (JObj (dict_set key
                                   (JObj (enforced entry new_hash)) r)) d))).
  { unfold update_code_requirements. rewrite Hfind. simpl.
    destruct (String.eqb_spec key EmptyString) as [E|_]; [contradiction|].
    simpl. now apply fix_requirement_object. }
  assert (Hafter :
            requirement
              (JObj (dict_set "codeRequirements"
                       (JObj (dict_set key
                                (JObj (enforced entry new_hash)) r)) d)) key
            = Some (JObj (enforced entry new_hash))).
  { unfold requirement, requirements_of, field.
    rewrite dict_get_set_same. apply dict_get_set_same. }
  eexists. exists (enforced entry new_hash).
  split; [exact Hstep|]. split; [exact Hafter|]. split.
  { intros config' Hrun. apply apply_update_ok in Hrun.
    destruct Hrun as (config1 & Hstep' & _ & F & _).
    rewrite Hstep in Hstep'. inversion Hstep'. subst config1.
    rewrite <- Hafter. unfold requirement, requirements_of.
    now rewrite F by discriminate. }
  split; [apply enforced_type|]. split; [apply enforced_identifier|]. split.
  - intros T. apply enforced_author_removed. now rewrite T.
  - intros T f N. apply enforced_file_hash; [|exact N]. now rewrite T.
Qed.

Lemma anchor_normalised_witness :
  (exists entry',
      requirement (after true (mosh_model trusted_anchor)) mosh_key
      = Some (JObj entry')
      /\ dict_get "type" entry' = Some (JStr "fileHash")
      /\ dict_get "codeIdentifier" entry' = Some (JStr bench_digest)
      /\ dict_get "authorIdentifier" entry' = None)
  /\ (exists entry',
         requirement (after false (mosh_model stale_anchor)) mosh_key
         = Some (JObj entry')
         /\ dict_get "type" entry' = Some (JStr "fileHash")
         /\ dict_get "codeIdentifier" entry' = Some (JStr bench_digest)).
Proof.
  split.
  - destruct (anchor_normalised bench_host (args_of mosh_link true) mosh_link
                mosh_real bench_digest (local (bench_now 1))
                (local (bench_now 2)) (mosh_fields trusted_anchor)
                (mosh_requirements trusted_anchor) trusted_fields mosh_key
                eq_refl ltac:(discriminate) eq_refl eq_refl)
      as (config1 & entry' & _ & _ & Hrun & Htype & Hid & Hauthor & _).
    exists entry'. split; [apply Hrun; reflexivity|].
    split; [exact Htype|]. split; [exact Hid|]. apply Hauthor. reflexivity.
  - destruct (anchor_normalised bench_host (args_of mosh_link false) mosh_link
                mosh_real bench_digest (local (bench_now 1))
                (local (bench_now 2)) (mosh_fields stale_anchor)
                (mosh_requirements stale_anchor) stale_fields mosh_key
                eq_refl ltac:(discriminate) eq_refl eq_refl)
      as (config1 & entry' & _ & _ & Hrun & Htype & Hid & _).
    exists entry'. split; [apply Hrun; reflexivity|].
    split; [exact Htype | exact Hid].
Defined.

(** *** The invariant of trust anchors *)

Lemma hex_digit_lower (n : nat) : is_lower_hex (hex_digit n) = true.
Proof.
  unfold hex_digit.
  assert (B : n mod 16 < 16) by (apply Nat.mod_upper_bound; discriminate).
  remember (n mod 16) as k eqn:K. clear K.
  do 16 (destruct k as [|k]; [reflexivity|]). lia.
Qed.

Lemma hex_lower (bs : list byte) : lower_hex (hex bs) = true.
Proof.
  unfold lower_hex. induction bs as [|b bs IH]; simpl; [reflexivity|].
  now rewrite !hex_digit_lower, IH.
Qed.

Lemma get_binary_hash_lower_hex (h : Host) (files : fs) (p digest : string) :
  get_binary_hash h files p = Ok digest -> lower_hex digest = true.
Proof.
  unfold get_binary_hash, read_file.
  destruct (files (realpath h p)) as [[|content|content]|]; simpl;
    try discriminate.
  intros E. inversion E. apply hex_lower.
Qed.

Lemma file_hash_ok (digest : string) :
  lower_hex digest = true -> anchor_ok (file_hash digest) = true.
Proof. intros L. simpl. now rewrite L. Qed.

Lemma enforced_ok (old : dict) (digest : string) :
  lower_hex digest = true ->
  anchor_ok (JObj old) = true ->
  anchor_ok (JObj (enforced old digest)) = true.
Proof.
  intros L Hold. unfold anchor_ok.
  rewrite enforced_type, enforced_identifier. simpl. rewrite L. simpl.
  unfold dict_mem.
  destruct (ne_str (dict_get "type" old) "fileHash") eqn:T.
  - now rewrite enforced_author_removed.
  - rewrite enforced_file_hash by (auto; discriminate).
    unfold anchor_ok in Hold. rewrite T in Hold.
    destruct (dict_get "codeIdentifier" old) as [[| | | |s| |]|];
      try discriminate.
    apply andb_prop in Hold. destruct Hold as [_ Hold].
    unfold dict_mem in Hold.
    now destruct (dict_get "authorIdentifier" old).
Qed.

(** C8.  With the digest that [get_binary_hash] computed, the edit
    preserves the invariant of trust anchors: if every [fileHash] entry
    of the document has a lowercase hexadecimal [codeIdentifier] and no
    [authorIdentifier], the same holds of every entry afterwards, the
    entry that was touched or inserted included. *)
Theorem anchors_stay_valid (h : Host) (files : fs) (args : Args)
  (binary_path resolved_path new_hash : string) (created modified : datetime)
  (config config' : json)
  (Hinv : anchors_ok config)
  (Hhash : get_binary_hash h files resolved_path = Ok new_hash)
  (Hrun : apply_update h args binary_path resolved_path new_hash created
            modified config = Ok config') :
  anchors_ok config'.
Proof.
  apply get_binary_hash_lower_hex in Hhash.
  apply apply_update_requirements in Hrun.
  destruct Hrun as (key & entry & Hreqs & Hentry).
  intros k anchor Hk. unfold requirement in Hk. rewrite Hreqs in Hk.
  destruct (string_dec k key) as [->|N].
  - rewrite dict_get_set_same in Hk. inversion Hk. subst anchor.
    destruct Hentry as [[_ ->]|(old & Hold & ->)].
    + now apply file_hash_ok.
    + apply enforced_ok; [exact Hhash|]. eapply Hinv; eauto.
  - rewrite dict_get_set_other in Hk by exact N.
    eapply Hinv; eauto.
Qed.

Lemma bench_anchors_ok : anchors_ok (mosh_model stale_anchor).
Proof.
  intros k anchor. unfold requirement.
  change (requirements_of (mosh_model stale_anchor))
    with (mosh_requirements stale_anchor).
  unfold mosh_requirements. cbn [dict_get].
  destruct (String.eqb "path.usr/bin/ssh" k).
  - intros E. inversion E. reflexivity.
  - destruct (String.eqb mosh_key k); [|discriminate].
    intros E. inversion E. reflexivity.
Defined.

Lemma anchors_stay_valid_witness :
  anchors_ok (mosh_model stale_anchor)
  /\ get_binary_hash bench_host disk mosh_real = Ok bench_digest
  /\ anchors_ok (after true (mosh_model stale_anchor)).
Proof.
  split; [exact bench_anchors_ok|]. split; [reflexivity|].
  exact (anchors_stay_valid bench_host disk (args_of mosh_link true)
           mosh_link mosh_real bench_digest (local (bench_now 1))
           (local (bench_now 2)) (mosh_model stale_anchor)
           (after true (mosh_model stale_anchor))
           bench_anchors_ok eq_refl eq_refl).
Defined.

(** *** When the edit goes through *)

Lemma first_match_strings (package_name relative_path : string)
  (keys : list string) :
  first_match package_name relative_path (map JStr keys) = Ok None
  \/ exists k, In k keys
               /\ first_match package_name relative_path (map JStr keys)
                  = Ok (Some (JStr k)).
Proof.
  induction keys as [|k keys IH]; simpl; [now left|].
  destruct (contains package_name k); simpl.
  - destruct (contains relative_path k).
    + right. exists k. auto.
    + destruct IH as [IH|(k' & Hin & IH)]; [now left|].
      right. exists k'. auto.
  - destruct IH as [IH|(k' & Hin & IH)]; [now left|].
    right. exists k'. auto.
Qed.

Lemma dict_get_key (k : string) (d : dict) :
  In k (dict_keys d) -> exists v, dict_get k d = Some v.
Proof.
  induction d as [|[k0 v0] d IH]; simpl; [contradiction|].
  intros [->|Hin].
  - rewrite String.eqb_refl. eauto.
  - destruct (String.eqb k0 k); eauto.
Qed.

Lemma dict_get_object (k : string) (d : dict) (v : json) :
  forallb (fun kv => is_object (snd kv)) d = true ->
  dict_get k d = Some v -> exists entry, v = JObj entry.
Proof.
  induction d as [|[k0 v0] d IH]; simpl; [discriminate|].
  intros H. apply andb_prop in H. destruct H as [H0 H].
  destruct (String.eqb k0 k); [|now apply IH].
  intros E. inversion E. subst. destruct v; try discriminate. eauto.
Qed.

Lemma create_requirement_total (d : dict) (resolved_path new_hash : string) :
  requirements_well_formed d = true ->
  exists config1,
    create_requirement (JObj d) resolved_path new_hash = Ok config1.
Proof.
  unfold requirements_well_formed, create_requirement, str_in, dict_mem.
  intros W.
  destruct (dict_get "codeRequirements" d) as [x|] eqn:G; simpl.
  - rewrite G. simpl. destruct x; try discriminate. simpl. eauto.
  - rewrite dict_get_set_same. simpl. eauto.
Qed.

Lemma update_code_requirements_total (h : Host) (d : dict)
  (binary_path resolved_path new_hash : string) (cr_key : option json) :
  requirements_well_formed d = true ->
  find_code_requirement_key h (JObj d) binary_path = Ok cr_key ->
  exists config1,
    update_code_requirements h (JObj d) binary_path resolved_path new_hash
    = Ok config1.
Proof.
  intros W Hfind. unfold update_code_requirements. rewrite Hfind. simpl.
  destruct cr_key as [key|]; [|now apply create_requirement_total].
  destruct (truthy key); [|now apply create_requirement_total].
  revert Hfind. unfold find_code_requirement_key.
  destruct (contains _ _); [|discriminate].
  destruct (index _ _) as [i|]; [|discriminate].
  destruct (nth_error _ _) as [package_name|]; [|discriminate].
  unfold requirements_well_formed in W.
  simpl. destruct (dict_get "codeRequirements" d) as [x|] eqn:G;
    [|discriminate].
  destruct x as [| | | | | |r]; try discriminate. simpl.
  match goal with |- first_match ?p ?q _ = _ -> _ =>
    destruct (first_match_strings p q (dict_keys r))
      as [->|(k & Hin & ->)] end; [discriminate|].
  intros E. inversion E. subst key.
  destruct (dict_get_key _ _ Hin) as (v & Gk).
  destruct (dict_get_object _ _ _ W Gk) as (entry & ->).
  rewrite (fix_requirement_object d r entry k new_hash G Gk). eauto.
Qed.

Lemma rules_step_total (d : dict) (rule : json) (binary_path : string)
  (replace_existing : bool) :
  rules_well_formed d = true ->
  replace_existing = true \/ dict_get "rules" d <> None ->
  exists config',
    (rules <- get_default (JObj d) "rules" (JArr []) ;;
     add_rule (JObj d) rules rule binary_path replace_existing) = Ok config'.
Proof.
  unfold rules_well_formed. intros W Hcase.
  unfold add_rule. simpl.
  destruct (dict_get "rules" d) as [x|] eqn:G.
  - destruct x as [| | | | |old|]; try discriminate.
    destruct replace_existing; simpl.
    + rewrite (other_rules_objects _ _ W). simpl.
      rewrite dict_get_set_same. simpl. eauto.
    + rewrite G. simpl. eauto.
  - destruct Hcase as [->|N]; [|congruence]. simpl.
    rewrite dict_get_set_same. simpl. eauto.
Qed.

(** On a document of the expected shape the edit goes through, provided
    the search for a key does (it raises [IndexError] when [Cellar] is the
    last component of the resolved path) and provided the document has
    rules or [--replace] is given. *)
Lemma apply_update_total (h : Host) (args : Args)
  (binary_path resolved_path new_hash : string) (created modified : datetime)
  (config : json) (cr_key : option json) :
  well_formed config = true ->
  find_code_requirement_key h config binary_path = Ok cr_key ->
  replace args = true \/ field config "rules" <> None ->
  exists config',
    apply_update h args binary_path resolved_path new_hash created modified
      config = Ok config'.
Proof.
  intros W Hfind Hcase.
  destruct config as [| | | | | |d]; try discriminate.
  simpl in W. apply andb_prop in W. destruct W as [Wc Wr].
  destruct (update_code_requirements_total h d binary_path resolved_path
              new_hash cr_key Wc Hfind) as (config1 & Hstep).
  unfold apply_update. rewrite Hstep. simpl.
  apply update_code_requirements_ok in Hstep.
  destruct Hstep as (d0 & d1 & key & entry & E & -> & _ & F & _).
  inversion E. subst d0. clear E.
  apply rules_step_total.
  - unfold rules_well_formed. now rewrite (F "rules") by discriminate.
  - destruct Hcase as [->|N]; [now left|]. right.
    now rewrite (F "rules") by discriminate.
Qed.

(** C3.  A document without a [rules] field makes the edit fail when
    [--replace] is not given: line 154 reads the rules with a default,
    line 179 appends to [config["rules"]], which does not exist.  (With
    [--replace] line 176 creates the field first, and a missing
    [codeRequirements] field is created at line 148.) *)
Theorem missing_rules_raise_key_error (h : Host) (args : Args)
  (binary_path resolved_path new_hash : string) (created modified : datetime)
  (config config1 : json)
  (Hmissing : field config "rules" = None)
  (Hflag : replace args = false)
  (Hstep : update_code_requirements h config binary_path resolved_path
             new_hash = Ok config1) :
  apply_update h args binary_path resolved_path new_hash created modified
    config = Raise (KeyError (JStr "rules")).
Proof.
  unfold apply_update. rewrite Hstep, Hflag. simpl.
  apply update_code_requirements_ok in Hstep.
  destruct Hstep as (d & d1 & key & entry & -> & -> & _ & F & _).
  simpl in Hmissing. unfold add_rule. simpl.
  now rewrite (F "rules"), Hmissing by discriminate.
Qed.

Lemma missing_rules_raise_key_error_witness :
  field no_rules_model "rules" = None
  /\ well_formed no_rules_model = true
  /\ run_update false no_rules_model = Raise (KeyError (JStr "rules")).
Proof.
  split; [reflexivity|]. split; [reflexivity|].
  exact (missing_rules_raise_key_error bench_host (args_of mosh_link false)
           mosh_link mosh_real bench_digest (local (bench_now 1))
           (local (bench_now 2)) no_rules_model
           (JObj [("codeRequirements",
                   JObj [(mosh_real, file_hash bench_digest)])])
           eq_refl eq_refl eq_refl).
Defined.

(** X13.  On a document of the expected shape the edit goes through
    when the document has rules or [--replace] is given (and the search
    for a key does not fail); a [codeRequirements] field that was
    missing then holds the one new entry, a [rules] field that was
    missing the one new rule. *)
Lemma missing_fields_tolerated (h : Host) (args : Args)
  (binary_path resolved_path new_hash : string) (created modified : datetime)
  (d : dict) (cr_key : option json) :
  well_formed (JObj d) = true ->
  find_code_requirement_key h (JObj d) binary_path = Ok cr_key ->
  replace args = true \/ dict_get "rules" d <> None ->
  exists config',
    apply_update h args binary_path resolved_path new_hash created modified
      (JObj d) = Ok config'
    /\ (dict_get "codeRequirements" d = None ->
        requirements_of config' = [(resolved_path, file_hash new_hash)])
    /\ (dict_get "rules" d = None ->
        rules_of config' = [new_rule args binary_path created modified]).
Proof.
  intros W Hfind Hcase.
  destruct (apply_update_total h args binary_path resolved_path new_hash
              created modified (JObj d) cr_key W Hfind Hcase)
    as (config' & Hrun).
  exists config'. split; [exact Hrun|]. split.
  - intros Hmissing.
    assert (Hnone : cr_key = None).
    { revert Hfind. unfold find_code_requirement_key.
      destruct (contains _ _); [|congruence].
      destruct (index _ _); [|congruence].
      destruct (nth_error _ _); [|discriminate].
      simpl. rewrite Hmissing. simpl. congruence. }
    subst cr_key.
    apply apply_update_ok in Hrun.
    destruct Hrun as (config1 & Hstep & _ & F & _).
    unfold requirements_of at 1. rewrite F by discriminate.
    revert Hstep. unfold update_code_requirements. rewrite Hfind. simpl.
    unfold create_requirement, str_in, dict_mem. rewrite Hmissing. simpl.
    rewrite dict_get_set_same. simpl.
    intros E. inversion E. unfold field. now rewrite dict_get_set_same.
  - intros Hmissing.
    apply apply_update_ok in Hrun.
    destruct Hrun as (config1 & _ & R & _).
    rewrite R. unfold rules_of at 1 2, field. rewrite Hmissing.
    now destruct (replace args).
Qed.

(** *** The new rule *)

(** C1.  The rule that the edit appends has the fields [action],
    [process], [ports], [protocol], [direction], [remote], [origin] and
    the two dates, with the values the caller gave; it has no [uid]
    field, whatever the user identifier of the host is. *)
Theorem new_rule_without_uid (h : Host) (args : Args)
  (binary_path resolved_path new_hash : string) (created modified : datetime)
  (config config' : json)
  (Hrun : apply_update h args binary_path resolved_path new_hash created
            modified config = Ok config') :
  exists kept rule,
    rules_of config' = kept ++ [rule]
    /\ field rule "uid" = None
    /\ field rule "uid" <> Some (JInt (getuid h))
    /\ field rule "action" = Some (JStr "allow")
    /\ field rule "origin" = Some (JStr "frontend")
    /\ field rule "process" = Some (JStr binary_path)
    /\ field rule "ports" = Some (JStr (ports args))
    /\ field rule "protocol" = Some (JStr (protocol args))
    /\ field rule "direction" = Some (JStr (direction args))
    /\ field rule "remote" = Some (JStr (remote args)).
Proof.
  apply apply_update_ok in Hrun. destruct Hrun as (config1 & _ & R & _).
  eexists. exists (new_rule args binary_path created modified).
  split; [exact R|].
  repeat split; try reflexivity. discriminate.
Qed.

(** The run of [test_update_rule_sets_uid_field]: an empty model, no
    [--replace].  The test then asserts ["uid" in rule]. *)
Lemma new_rule_without_uid_witness :
  apply_update bench_host test_args "/usr/local/bin/test"
    "/usr/local/bin/test" "testhash123" (local (bench_now 1))
    (local (bench_now 2)) empty_model
  = Ok (JObj [("codeRequirements",
               JObj [("/usr/local/bin/test", file_hash "testhash123")]);
              ("rules",
               JArr [new_rule test_args "/usr/local/bin/test"
                       (local (bench_now 1)) (local (bench_now 2))])])
  /\ exists kept rule,
       kept ++ [rule]
       = [new_rule test_args "/usr/local/bin/test" (local (bench_now 1))
            (local (bench_now 2))]
       /\ field rule "uid" = None.
Proof.
  split; [reflexivity|].
  destruct (new_rule_without_uid bench_host test_args "/usr/local/bin/test"
              "/usr/local/bin/test" "testhash123" (local (bench_now 1))
              (local (bench_now 2)) empty_model _ eq_refl)
    as (kept & rule & R & U & _).
  exists kept, rule. split; [symmetry; exact R | exact U].
Defined.

(** C9.  The two dates of the new rule are two successive readings of
    [datetime.now()], the local wall time, printed with a literal [Z];
    [origin] is [frontend].  On a host two hours ahead of UTC the dates
    are therefore two hours off the UTC time they claim to be. *)
Theorem dates_are_local_wall_time :
  (forall (h : Host) (args : Args) (binary_path : string) (w : World),
      exists rule,
        make_new_rule h args binary_path w
        = (Ok rule, {| files := files w; calls := calls w;
                       ticks := S (S (ticks w)) |})
        /\ field rule "creationDate"
           = Some (JStr (strftime_iso (local (now h (ticks w)))))
        /\ field rule "modificationDate"
           = Some (JStr (strftime_iso (local (now h (S (ticks w))))))
        /\ field rule "origin" = Some (JStr "frontend"))
  /\ (exists rule w',
         make_new_rule bench_host test_args "/usr/local/bin/test" start
         = (Ok rule, w')
         /\ field rule "creationDate" = Some (JStr "2024-05-17T14:30:00Z")
         /\ strftime_iso (utc (now bench_host (ticks start)))
            = "2024-05-17T12:30:00Z").
Proof.
  split.
  - intros h args binary_path w. eexists. repeat split.
  - eexists. eexists. repeat split.
Qed.

(** *** Restoring *)

Lemma restore_config_run (h : Host) (input_path u : string) (w : World) :
  USER h = Some u ->
  restore_config h input_path w
  = let (o, files') :=
      spawn h (length (calls w))
        ["sudo"; LS_CMD; "-u"; u; "restore-model"; input_path] (files w) in
    let w' := {| files := files';
                 calls := calls w ++ [restore_call u input_path o];
                 ticks := ticks w |} in
    match o with
    | Exited code out _ =>
        if (code =? 0)%Z then (Ok (strip out), w')
        else (Raise (SystemExit 1), w')
    | Undecodable _ => (Raise UnicodeDecodeError, w')
    | NotStarted => (Raise OSError, w')
    end.
Proof.
  intros U. unfold restore_config, run_command, subprocess_run.
  rewrite U. simpl.
  destruct (spawn h _ _ _) as [o files'].
  destruct o as [code out err|code|]; [|reflexivity|reflexivity].
  unfold restore_call. now destruct (code =? 0)%Z.
Qed.

(** C2.  When the [restore-model] process for the modified file ends
    with a non-zero status, [run_command] turns the failure into
    [SystemExit], which [except Exception] does not catch: the run ends
    there with status 1, and the failed call is the last child process of
    the run.  No second [restore-model] is started for the backup. *)
Theorem failed_restore_is_not_reverted (h : Host) (w : World)
  (modified_file backup_file u : string) (code : Z) (out err : string)
  (files' : fs)
  (Huser : USER h = Some u)
  (Hspawn : spawn h (length (calls w))
              ["sudo"; LS_CMD; "-u"; u; "restore-model"; modified_file]
              (files w)
            = (Exited code out err, files'))
  (Hcode : code <> 0%Z) :
  restore_or_revert h modified_file backup_file w
  = (Raise (SystemExit 1),
     {| files := files';
        calls := calls w
                 ++ [restore_call u modified_file (Exited code out err)];
        ticks := ticks w |}).
Proof.
  unfold restore_or_revert, try_except.
  rewrite (restore_config_run h modified_file u w Huser), Hspawn.
  destruct (Z.eqb_spec code 0) as [E|_]; [contradiction|]. reflexivity.
Qed.

Lemma failed_restore_is_not_reverted_witness :
  restore_or_revert (host empty_model restore_exits_1)
    "/tmp/ls_modified_20240517143000.json"
    "/Users/tester/.ls_backups/ls_backup_20240517143000.json" start
  = (Raise (SystemExit 1),
     {| files := disk;
        calls := [restore_call "tester" "/tmp/ls_modified_20240517143000.json"
                    (Exited 1 EmptyString "restore-model: invalid model")];
        ticks := 0 |}).
Proof.
  exact (failed_restore_is_not_reverted (host empty_model restore_exits_1)
           start "/tmp/ls_modified_20240517143000.json"
           "/Users/tester/.ls_backups/ls_backup_20240517143000.json"
           "tester" 1 EmptyString "restore-model: invalid model" disk
           eq_refl eq_refl ltac:(discriminate)).
Defined.

(** The whole run on the bench, with a store that refuses the modified
    model: one [export-model], one [restore-model], exit status 1. *)
Lemma update_rule_failed_restore :
  let (r, w) := update_rule (host empty_model restore_exits_1) test_args
                  start in
  r = Raise (SystemExit 1)
  /\ exit_status r = 1%Z
  /\ calls w
     = [export_call "tester"
          "/Users/tester/.ls_backups/ls_backup_20240517143000.json"
          (Exited 0 EmptyString EmptyString);
        restore_call "tester" "/tmp/ls_modified_20240517143000.json"
          (Exited 1 EmptyString "restore-model: invalid model")].
Proof. vm_compute. repeat split. Qed.

(** X20.  The handler does run for an exception that is an
    [Exception]: when the [restore-model] of the modified file cannot be
    started at all, a [restore-model] of the backup file is started
    next, and the run fails whatever comes of it. *)
Lemma unstarted_restore_is_reverted (h : Host) (w : World)
  (modified_file backup_file u : string) (files' : fs)
  (Huser : USER h = Some u)
  (Hspawn : spawn h (length (calls w))
              ["sudo"; LS_CMD; "-u"; u; "restore-model"; modified_file]
              (files w)
            = (NotStarted, files')) :
  exists o r w',
    restore_or_revert h modified_file backup_file w = (Raise r, w')
    /\ calls w' = calls w ++ [restore_call u modified_file NotStarted;
                              restore_call u backup_file o].
Proof.
  unfold restore_or_revert, try_except.
  rewrite (restore_config_run h modified_file u w Huser), Hspawn.
  cbv beta iota zeta. simpl is_Exception. cbv iota.
  unfold seq. rewrite (restore_config_run h backup_file u _ Huser).
  cbn [files calls ticks].
  destruct (spawn h _ _ files') as [o files''].
  exists o.
  destruct o as [code out err|code|].
  - destruct (code =? 0)%Z; do 2 eexists; split; try reflexivity;
      cbn [calls]; now rewrite <- app_assoc.
  - do 2 eexists; split; try reflexivity.
    cbn [calls]; now rewrite <- app_assoc.
  - do 2 eexists; split; try reflexivity.
    cbn [calls]; now rewrite <- app_assoc.
Qed.

(* ===================================================================== *)
(** ** Further properties                                                 *)
(* ===================================================================== *)

(** *** Paths and their components *)

Lemma prefix_same (s : string) : String.prefix s s = true.
Proof.
  induction s as [|c s IH]; simpl; [reflexivity|].
  destruct (ascii_dec c c); [exact IH | congruence].
Qed.

Lemma prefix_empty (s : string) : String.prefix EmptyString s = true.
Proof. now destruct s. Qed.

Lemma contains_empty (s : string) : contains EmptyString s = true.
Proof. destruct s; simpl; reflexivity. Qed.

Lemma contains_tail (x : string) (c : ascii) (s : string) :
  contains x s = true -> contains x (String c s) = true.
Proof.
  intros H. cbn [contains]. rewrite H. apply orb_true_r.
Qed.

Lemma contains_prefix (x s : string) :
  String.prefix x s = true -> contains x s = true.
Proof.
  intros H. destruct s; cbn [contains]; rewrite H; reflexivity.
Qed.

(** The first component of a path is the text up to the first separator. *)
Lemma split_head (sep : ascii) (s : string) :
  exists part parts,
    split sep s = part :: parts /\ String.prefix part s = true.
Proof.
  induction s as [|c s (part & parts & E & P)]; simpl.
  - exists EmptyString, []. auto.
  - destruct (Ascii.eqb c sep).
    + exists EmptyString, (split sep s). auto.
    + rewrite E. exists (String c part), parts. split; [reflexivity|].
      simpl. destruct (ascii_dec c c); [exact P | congruence].
Qed.

(** Every component of a path occurs in the path. *)
Lemma component_is_substring (sep : ascii) (x s : string) :
  In x (split sep s) -> contains x s = true.
Proof.
  induction s as [|c s IH]; intros Hin; simpl in Hin.
  - destruct Hin as [<-|[]]. reflexivity.
  - destruct (Ascii.eqb c sep).
    + destruct Hin as [<-|Hin]; [apply contains_empty|].
      apply contains_tail. now apply IH.
    + destruct (split_head sep s) as (part & parts & E & P).
      rewrite E in *. destruct Hin as [<-|Hin].
      * apply contains_prefix. simpl.
        destruct (ascii_dec c c); [exact P | congruence].
      * apply contains_tail. apply IH. now right.
Qed.

Lemma index_in (x : string) (parts : list string) (i : nat) :
  index x parts = Some i -> In x parts.
Proof.
  revert i. induction parts as [|p parts IH]; simpl; [discriminate|].
  intros i. destruct (String.eqb_spec p x) as [->|_]; [now left|].
  destruct (index x parts) as [j|]; [|discriminate].
  intros _. right. now apply (IH j).
Qed.

Lemma index_app (x : string) (pre rest : list string) :
  ~ In x pre -> index x (pre ++ x :: rest) = Some (length pre).
Proof.
  induction pre as [|p pre IH]; simpl; intros N.
  - now rewrite String.eqb_refl.
  - destruct (String.eqb_spec p x) as [->|_]; [exfalso; auto|].
    rewrite IH by auto. reflexivity.
Qed.

(** Where the search for a key gets its two texts from. *)
Lemma find_code_requirement_key_parts (h : Host) (config : json)
  (binary_path package_name : string) (i : nat) :
  index "Cellar" (split "/" (realpath h binary_path)) = Some i ->
  nth_error (split "/" (realpath h binary_path)) (i + 1) = Some package_name ->
  find_code_requirement_key h config binary_path
  = (requirements <- get_default config "codeRequirements" (JObj []) ;;
     keys <- iter requirements ;;
     first_match package_name
       (join "/" (skipn (i + 3) (split "/" (realpath h binary_path)))) keys).
Proof.
  intros Hi Hp. unfold find_code_requirement_key.
  rewrite (component_is_substring "/" "Cellar" _ (index_in _ _ _ Hi)).
  now rewrite Hi, Hp.
Qed.

Lemma first_match_find (package_name relative_path : string)
  (keys : list string) :
  first_match package_name relative_path (map JStr keys)
  = Ok (option_map JStr
          (find (fun k => contains package_name k && contains relative_path k)
             keys)).
Proof.
  induction keys as [|k keys IH]; simpl; [reflexivity|].
  destruct (contains package_name k); simpl; [|exact IH].
  destruct (contains relative_path k); [reflexivity | exact IH].
Qed.

(** X1.  On a document whose code requirements are an object, and for a
    resolved path with a component after [Cellar], the search returns
    the first key, in the order of the document, that contains both the
    package name and the path below the version directory, and [None]
    when there is no such key. *)
Theorem search_is_first_match (h : Host) (d reqs : dict)
  (binary_path package_name : string) (i : nat)
  (Hreqs : dict_get "codeRequirements" d = Some (JObj reqs))
  (Hi : index "Cellar" (split "/" (realpath h binary_path)) = Some i)
  (Hp : nth_error (split "/" (realpath h binary_path)) (i + 1)
        = Some package_name) :
  find_code_requirement_key h (JObj d) binary_path
  = Ok (option_map JStr
          (find (fun k =>
                   contains package_name k
                   && contains
                        (join "/" (skipn (i + 3)
                                     (split "/" (realpath h binary_path)))) k)
             (dict_keys reqs))).
Proof.
  rewrite (find_code_requirement_key_parts h (JObj d) binary_path
             package_name i Hi Hp).
  simpl. rewrite Hreqs. simpl. apply first_match_find.
Qed.

Lemma search_is_first_match_witness :
  find_code_requirement_key bench_host two_keys_model mosh_link
  = Ok (option_map JStr
          (find (fun k => contains "mosh" k && contains "bin/mosh-server" k)
             [brew_key; mosh_key])).
Proof.
  exact (search_is_first_match bench_host
           [("codeRequirements", JObj [(brew_key, stale_anchor);
                                       (mosh_key, stale_anchor)]);
            ("rules", JArr [])]
           [(brew_key, stale_anchor); (mosh_key, stale_anchor)]
           mosh_link "mosh" 3 eq_refl eq_refl eq_refl).
Defined.

(** X2.  When [Cellar] is the last component of the resolved path there
    is no package name to read: [parts[cellar_index + 1]] raises
    [IndexError], which the [except ValueError] around it lets through,
    whatever the document holds. *)
Theorem search_fails_when_cellar_is_last (h : Host) (config : json)
  (binary_path : string) (i : nat)
  (Hi : index "Cellar" (split "/" (realpath h binary_path)) = Some i)
  (Hlast : length (split "/" (realpath h binary_path)) = i + 1) :
  find_code_requirement_key h config binary_path = Raise IndexError.
Proof.
  unfold find_code_requirement_key.
  rewrite (component_is_substring "/" "Cellar" _ (index_in _ _ _ Hi)), Hi.
  assert (N : nth_error (split "/" (realpath h binary_path)) (i + 1) = None)
    by (apply nth_error_None; lia).
  now rewrite N.
Qed.

Lemma search_fails_when_cellar_is_last_witness :
  find_code_requirement_key bench_host empty_model "/usr/local/Cellar"
  = Raise IndexError.
Proof.
  exact (search_fails_when_cellar_is_last bench_host empty_model
           "/usr/local/Cellar" 3 eq_refl eq_refl).
Defined.

(** X3.  The search does not look at the version directory: two resolved
    paths that differ only in the component after the package name give
    the same result on every document. *)
Theorem search_ignores_version (h : Host) (config : json)
  (p1 p2 package_name v1 v2 : string) (pre rest : list string)
  (Hpre : ~ In "Cellar" pre)
  (H1 : split "/" (realpath h p1)
        = pre ++ "Cellar" :: package_name :: v1 :: rest)
  (H2 : split "/" (realpath h p2)
        = pre ++ "Cellar" :: package_name :: v2 :: rest) :
  find_code_requirement_key h config p1
  = find_code_requirement_key h config p2.
Proof.
  assert (P : forall v p,
             split "/" (realpath h p)
             = pre ++ "Cellar" :: package_name :: v :: rest ->
             find_code_requirement_key h config p
             = (requirements <- get_default config "codeRequirements"
                                  (JObj []) ;;
                keys <- iter requirements ;;
                first_match package_name (join "/" rest) keys)).
  { intros v p E.
    rewrite (find_code_requirement_key_parts h config p package_name
               (length pre)).
    - rewrite E.
      replace (length pre + 3) with (length pre + 3 + 0) by lia.
      replace (pre ++ "Cellar" :: package_name :: v :: rest)
        with ((pre ++ ["Cellar"; package_name; v]) ++ rest)
        by (rewrite <- app_assoc; reflexivity).
      rewrite skipn_app.
      assert (L : length (pre ++ ["Cellar"; package_name; v])
                  = length pre + 3)
        by (rewrite length_app; reflexivity).
      rewrite skipn_all2 by lia.
      replace (length pre + 3 + 0 - length (pre ++ ["Cellar"; package_name; v]))
        with 0 by lia.
      reflexivity.
    - rewrite E. now apply index_app.
    - rewrite E. rewrite nth_error_app2 by lia.
      replace (length pre + 1 - length pre) with 1 by lia. reflexivity. }
  now rewrite (P v1 p1 H1), (P v2 p2 H2).
Qed.

Lemma search_ignores_version_witness :
  find_code_requirement_key bench_host (mosh_model stale_anchor) mosh_link
  = find_code_requirement_key bench_host (mosh_model stale_anchor)
      "/usr/local/Cellar/mosh/1.5.0_2/bin/mosh-server".
Proof.
  apply (search_ignores_version bench_host (mosh_model stale_anchor)
           mosh_link "/usr/local/Cellar/mosh/1.5.0_2/bin/mosh-server"
           "mosh" "1.4.0" "1.5.0_2" [""; "usr"; "local"]
           ["bin"; "mosh-server"]).
  - intros [H|[H|[H|[]]]]; discriminate H.
  - reflexivity.
  - reflexivity.
Defined.

(** *** More on get_binary_hash *)


(** X5.  The digest does not depend on the size of the blocks the file
    is read in: with any positive block size the hash object ends up fed
    with exactly the content of the file.  (With a block size of 0 the
    first read is empty and nothing is fed.) *)
Theorem digest_independent_of_block_size (h : Host) (size : nat)
  (content : list byte) (Hsize : 0 < size) :
  hexdigest h (hash_blocks size content sha256_new) = hex (sha256 h content)
  /\ hash_blocks size content sha256_new
     = hash_blocks 4096 content sha256_new
  /\ hash_blocks 0 content sha256_new = sha256_new.
Proof.
  assert (M : forall n, 0 < n ->
                        hash_blocks n content sha256_new
                        = {| message := content |}).
  { intros n Hn.
    pose proof (hash_blocks_message n content sha256_new Hn) as E.
    destruct (hash_blocks n content sha256_new) as [m].
    simpl in E. now subst. }
  split; [|split].
  - unfold hexdigest. now rewrite hash_blocks_message.
  - rewrite (M size Hsize), (M 4096) by lia. reflexivity.
  - now simp hash_blocks.
Qed.

Lemma digest_independent_of_block_size_witness :
  hexdigest bench_host (hash_blocks 5 binary sha256_new)
  = hex (bench_sha256 binary)
  /\ hash_blocks 5 binary sha256_new = hash_blocks 4096 binary sha256_new
  /\ hash_blocks 0 binary sha256_new = sha256_new.
Proof.
  apply (digest_independent_of_block_size bench_host 5 binary). lia.
Defined.

Lemma hex_length (bs : list byte) : String.length (hex bs) = 2 * length bs.
Proof.
  induction bs as [|b bs IH]; simpl; [reflexivity|]. rewrite IH. lia.
Qed.

(** X6.  A fingerprint is text in lowercase hexadecimal, two characters
    for each byte of the digest. *)
Theorem fingerprint_shape (h : Host) (files : fs) (p digest : string)
  (content : list byte)
  (Hfile : files (realpath h p) = Some (File content))
  (Hrun : get_binary_hash h files p = Ok digest) :
  lower_hex digest = true
  /\ String.length digest = 2 * length (sha256 h content).
Proof.
  rewrite (get_binary_hash_file h files p content Hfile) in Hrun.
  inversion Hrun. split; [apply hex_lower | apply hex_length].
Qed.

Lemma fingerprint_shape_witness :
  lower_hex bench_digest = true /\ String.length bench_digest = 64.
Proof.
  exact (fingerprint_shape bench_host disk mosh_link bench_digest binary
           eq_refl eq_refl).
Defined.

(** *** More on dictionaries *)

Lemma bind_assoc (A B C : Type) (r : result A) (f : A -> result B)
  (g : B -> result C) :
  bind (bind r f) g = bind r (fun a => bind (f a) g).
Proof. now destruct r. Qed.

Lemma dict_set_same_value (k : string) (v : json) (d : dict) :
  dict_get k d = Some v -> dict_set k v d = d.
Proof.
  induction d as [|[k0 v0] d IH]; simpl; [discriminate|].
  destruct (String.eqb_spec k0 k) as [->|_].
  - intros E. inversion E. reflexivity.
  - intros E. now rewrite IH.
Qed.

Lemma dict_set_twice (k : string) (v v' : json) (d : dict) :
  dict_set k v (dict_set k v' d) = dict_set k v d.
Proof.
  induction d as [|[k0 v0] d IH]; simpl.
  - now rewrite String.eqb_refl.
  - destruct (String.eqb k0 k) eqn:E; simpl; rewrite E; [reflexivity|].
    now rewrite IH.
Qed.

Lemma dict_keys_set (k : string) (v : json) (d : dict) :
  dict_keys (dict_set k v d)
  = if dict_mem k d then dict_keys d else dict_keys d ++ [k].
Proof.
  unfold dict_mem. induction d as [|[k0 v0] d IH]; simpl; [reflexivity|].
  destruct (String.eqb k0 k) eqn:E; simpl; [reflexivity|].
  rewrite IH. now destruct (dict_get k d).
Qed.

Lemma dict_mem_set_other (k k' : string) (v : json) (d : dict) :
  k' <> k -> dict_mem k' (dict_set k v d) = dict_mem k' d.
Proof. intros N. unfold dict_mem. now rewrite dict_get_set_other. Qed.

(** *** More on part 1 of the edit *)

Lemma enforced_fixed_point (entry : dict) (new_hash : string) :
  dict_get "type" entry = Some (JStr "fileHash") ->
  dict_get "codeIdentifier" entry = Some (JStr new_hash) ->
  enforced entry new_hash = entry.
Proof.
  intros T I. unfold enforced. rewrite T. simpl. rewrite I. simpl.
  now rewrite String.eqb_refl.
Qed.

Lemma enforced_other_fields (entry : dict) (new_hash f : string) :
  f <> "type" -> f <> "codeIdentifier" -> f <> "authorIdentifier" ->
  dict_get f (enforced entry new_hash) = dict_get f entry.
Proof.
  intros N1 N2 N3. unfold enforced.
  assert (T : dict_get f
                (if ne_str (dict_get "type" entry) "fileHash"
                 then
                   if dict_mem "authorIdentifier"
                        (dict_set "type" (JStr "fileHash") entry)
                   then dict_del "authorIdentifier"
                          (dict_set "type" (JStr "fileHash") entry)
                   else dict_set "type" (JStr "fileHash") entry
                 else entry) = dict_get f entry).
  { destruct (ne_str _ "fileHash"); [|reflexivity].
    destruct (dict_mem _ _).
    - now rewrite dict_get_del_other, dict_get_set_other.
    - now rewrite dict_get_set_other. }
  destruct (ne_str _ new_hash); [|exact T].
  now rewrite dict_get_set_other.
Qed.

Lemma requirements_of_set (requirements d : dict) :
  requirements_of (JObj (dict_set "codeRequirements" (JObj requirements) d))
  = requirements.
Proof. unfold requirements_of, field. now rewrite dict_get_set_same. Qed.

Lemma create_requirement_form (d : dict) (config1 : json)
  (resolved_path new_hash : string) :
  create_requirement (JObj d) resolved_path new_hash = Ok config1 ->
  config1 = JObj (dict_set "codeRequirements"
                    (JObj (dict_set resolved_path (file_hash new_hash)
                             (requirements_of (JObj d)))) d)
  /\ forall x, dict_get "codeRequirements" d = Some x -> is_object x = true.
Proof.
  unfold create_requirement, requirements_of, field, str_in, dict_mem.
  destruct (dict_get "codeRequirements" d) as [x|] eqn:G; simpl.
  - rewrite G. simpl. destruct x; try discriminate. simpl.
    intros E. inversion E. split; [reflexivity|].
    intros x E'. inversion E'. reflexivity.
  - rewrite dict_get_set_same. simpl. intros E. inversion E.
    rewrite dict_set_twice. split; [reflexivity | discriminate].
Qed.

(** X7.  When the search finds no key, part 1 puts a fresh [fileHash]
    entry with the digest under the resolved path, in place of whatever
    was under that key, and touches no other key and no other field; the
    [codeRequirements] field is made when it is missing.  This needs the
    field, when present, to be an object. *)
Theorem new_requirement_under_resolved_path (h : Host) (d : dict)
  (binary_path resolved_path new_hash : string)
  (Hfind : find_code_requirement_key h (JObj d) binary_path = Ok None)
  (Hshape : forall x, dict_get "codeRequirements" d = Some x ->
                      is_object x = true) :
  exists d1,
    update_code_requirements h (JObj d) binary_path resolved_path new_hash
    = Ok (JObj d1)
    /\ requirement (JObj d1) resolved_path = Some (file_hash new_hash)
    /\ (forall k, k <> resolved_path ->
                  requirement (JObj d1) k = requirement (JObj d) k)
    /\ (forall f, f <> "codeRequirements" -> dict_get f d1 = dict_get f d)
    /\ dict_keys d1
       = if dict_mem "codeRequirements" d then dict_keys d
         else dict_keys d ++ ["codeRequirements"].
Proof.
  assert (Hrun : exists config1,
             create_requirement (JObj d) resolved_path new_hash = Ok config1).
  { unfold create_requirement, str_in, dict_mem.
    destruct (dict_get "codeRequirements" d) as [x|] eqn:G; simpl.
    - rewrite G. simpl. specialize (Hshape x eq_refl).
      destruct x; try discriminate. simpl. eauto.
    - rewrite dict_get_set_same. simpl. eauto. }
  destruct Hrun as (config1 & Hrun).
  destruct (create_requirement_form _ _ _ _ Hrun) as [-> _].
  eexists. split.
  { unfold update_code_requirements. rewrite Hfind. simpl. exact Hrun. }
  unfold requirement. rewrite requirements_of_set. repeat split.
  - apply dict_get_set_same.
  - intros k N. now apply dict_get_set_other.
  - intros f N. now apply dict_get_set_other.
  - apply dict_keys_set.
Qed.

Lemma new_requirement_under_resolved_path_witness :
  exists d1,
    update_code_requirements bench_host
      (JObj [("rules", JArr [])]) "/usr/local/bin/test"
      "/usr/local/bin/test" bench_digest = Ok (JObj d1)
    /\ requirement (JObj d1) "/usr/local/bin/test"
       = Some (file_hash bench_digest)
    /\ dict_keys d1 = ["rules"; "codeRequirements"].
Proof.
  destruct (new_requirement_under_resolved_path bench_host
              [("rules", JArr [])] "/usr/local/bin/test"
              "/usr/local/bin/test" bench_digest eq_refl
              ltac:(discriminate))
    as (d1 & Hrun & Hreq & _ & _ & Hkeys).
  exists d1. split; [exact Hrun|]. split; [exact Hreq | exact Hkeys].
Defined.

(** X8.  When the entry under the key that was found is a [fileHash]
    entry with this digest already, part 1 returns the document as it
    is. *)
Theorem matching_requirement_untouched (h : Host) (d r entry : dict)
  (binary_path resolved_path new_hash key : string)
  (Hfind : find_code_requirement_key h (JObj d) binary_path
           = Ok (Some (JStr key)))
  (Hkey : key <> EmptyString)
  (Hreqs : dict_get "codeRequirements" d = Some (JObj r))
  (Hentry : dict_get key r = Some (JObj entry))
  (Htype : dict_get "type" entry = Some (JStr "fileHash"))
  (Hid : dict_get "codeIdentifier" entry = Some (JStr new_hash)) :
  update_code_requirements h (JObj d) binary_path resolved_path new_hash
  = Ok (JObj d).
Proof.
  unfold update_code_requirements. rewrite Hfind. simpl.
  destruct (String.eqb_spec key EmptyString) as [E|_]; [contradiction|].
  simpl. rewrite (fix_requirement_object d r entry key new_hash Hreqs Hentry).
  rewrite (enforced_fixed_point entry new_hash Htype Hid).
  rewrite (dict_set_same_value key (JObj entry) r Hentry).
  now rewrite (dict_set_same_value "codeRequirements" (JObj r) d Hreqs).
Qed.

Lemma matching_requirement_untouched_witness :
  update_code_requirements bench_host
    (mosh_model (file_hash bench_digest)) mosh_link mosh_real bench_digest
  = Ok (mosh_model (file_hash bench_digest)).
Proof.
  exact (matching_requirement_untouched bench_host
           (mosh_fields (file_hash bench_digest))
           (mosh_requirements (file_hash bench_digest))
           [("type", JStr "fileHash"); ("codeIdentifier", JStr bench_digest)]
           mosh_link mosh_real bench_digest mosh_key
           eq_refl ltac:(discriminate) eq_refl eq_refl eq_refl eq_refl).
Defined.

(** X9.  In the entry it rewrites, part 1 changes nothing but [type],
    [codeIdentifier] and [authorIdentifier]: every other field of the
    entry keeps its value, and so does every other entry. *)
Theorem requirement_other_fields_kept (h : Host) (d r entry : dict)
  (binary_path resolved_path new_hash key : string)
  (Hfind : find_code_requirement_key h (JObj d) binary_path
           = Ok (Some (JStr key)))
  (Hkey : key <> EmptyString)
  (Hreqs : dict_get "codeRequirements" d = Some (JObj r))
  (Hentry : dict_get key r = Some (JObj entry)) :
  exists config1 entry',
    update_code_requirements h (JObj d) binary_path resolved_path new_hash
    = Ok config1
    /\ requirement config1 key = Some (JObj entry')
    /\ (forall f, f <> "type" -> f <> "codeIdentifier" ->
                  f <> "authorIdentifier" ->
                  dict_get f entry' = dict_get f entry)
    /\ (forall k, k <> key ->
                  requirement config1 k = requirement (JObj d) k)
    /\ dict_keys (requirements_of config1) = dict_keys r.
Proof.
  eexists. exists (enforced entry new_hash). split.
  { unfold update_code_requirements. rewrite Hfind. simpl.
    destruct (String.eqb_spec key EmptyString) as [E|_]; [contradiction|].
    simpl. exact (fix_requirement_object d r entry key new_hash Hreqs Hentry). }
  unfold requirement. rewrite requirements_of_set.
  assert (R : requirements_of (JObj d) = r)
    by (unfold requirements_of, field; now rewrite Hreqs).
  rewrite R. repeat split.
  - apply dict_get_set_same.
  - intros f N1 N2 N3. now apply enforced_other_fields.
  - intros k N. now apply dict_get_set_other.
  - rewrite dict_keys_set. unfold dict_mem. now rewrite Hentry.
Qed.

Lemma requirement_other_fields_kept_witness :
  exists config1 entry',
    update_code_requirements bench_host
      (mosh_model (JObj (trusted_fields ++ [("comment", JStr "pinned")])))
      mosh_link mosh_real bench_digest = Ok config1
    /\ requirement config1 mosh_key = Some (JObj entry')
    /\ dict_get "comment" entry' = Some (JStr "pinned").
Proof.
  destruct (requirement_other_fields_kept bench_host
              (mosh_fields
                 (JObj (trusted_fields ++ [("comment", JStr "pinned")])))
              (mosh_requirements
                 (JObj (trusted_fields ++ [("comment", JStr "pinned")])))
              (trusted_fields ++ [("comment", JStr "pinned")])
              mosh_link mosh_real bench_digest mosh_key
              eq_refl ltac:(discriminate) eq_refl eq_refl)
    as (config1 & entry' & Hrun & Hreq & Hfields & _).
  exists config1, entry'. split; [exact Hrun|]. split; [exact Hreq|].
  rewrite Hfields by discriminate. reflexivity.
Defined.

(** *** Running part 1 twice *)

Lemma find_code_requirement_key_cases (h : Host) (binary_path : string) :
  (forall config, find_code_requirement_key h config binary_path = Ok None)
  \/ (forall config,
         find_code_requirement_key h config binary_path = Raise IndexError)
  \/ (exists package_name relative_path,
         forall config,
           find_code_requirement_key h config binary_path
           = (requirements <- get_default config "codeRequirements"
                                (JObj []) ;;
              keys <- iter requirements ;;
              first_match package_name relative_path keys)).
Proof.
  unfold find_code_requirement_key.
  destruct (contains _ _); [|now left].
  destruct (index _ _) as [i|]; [|now left].
  destruct (nth_error _ _) as [package_name|].
  - right. right. eauto.
  - right. now left.
Qed.

Lemma create_requirement_again (d r0 : dict) (resolved_path new_hash : string) :
  create_requirement
    (JObj (dict_set "codeRequirements"
             (JObj (dict_set resolved_path (file_hash new_hash) r0)) d))
    resolved_path new_hash
  = Ok (JObj (dict_set "codeRequirements"
                (JObj (dict_set resolved_path (file_hash new_hash) r0)) d)).
Proof.
  unfold create_requirement, str_in, dict_mem.
  rewrite dict_get_set_same. simpl. rewrite dict_get_set_same. simpl.
  now rewrite !dict_set_twice.
Qed.

Lemma fix_requirement_fixed_point (d r entry : dict) (key new_hash : string) :
  dict_get "codeRequirements" d = Some (JObj r) ->
  dict_get key r = Some (JObj entry) ->
  dict_get "type" entry = Some (JStr "fileHash") ->
  dict_get "codeIdentifier" entry = Some (JStr new_hash) ->
  fix_requirement (JObj d) (JStr key) new_hash = Ok (JObj d).
Proof.
  intros Hreqs Hentry Htype Hid.
  rewrite (fix_requirement_object d r entry key new_hash Hreqs Hentry).
  rewrite (enforced_fixed_point entry new_hash Htype Hid).
  rewrite (dict_set_same_value key (JObj entry) r Hentry).
  now rewrite (dict_set_same_value "codeRequirements" (JObj r) d Hreqs).
Qed.

Lemma find_app_one (f : string -> bool) (l : list string) (x : string) :
  find f (l ++ [x])
  = match find f l with
    | Some y => Some y
    | None => if f x then Some x else None
    end.
Proof.
  induction l as [|y l IH]; simpl; [reflexivity|].
  now destruct (f y).
Qed.

(** The keys the search runs over, for a document whose code
    requirements are an object or are missing. *)
Lemma search_over_keys (d : dict) (package_name relative_path : string) :
  (forall x, dict_get "codeRequirements" d = Some x -> is_object x = true) ->
  (requirements <- get_default (JObj d) "codeRequirements" (JObj []) ;;
   keys <- iter requirements ;;
   first_match package_name relative_path keys)
  = Ok (option_map JStr
          (find (fun k => contains package_name k && contains relative_path k)
             (dict_keys (requirements_of (JObj d))))).
Proof.
  intros Hshape. unfold requirements_of, field. simpl.
  destruct (dict_get "codeRequirements" d) as [x|]; simpl.
  - specialize (Hshape x eq_refl). destruct x; try discriminate. simpl.
    apply first_match_find.
  - reflexivity.
Qed.

(** X10.  Part 1 is idempotent: run again on its own result, with the
    same path and digest, it returns that result unchanged. *)
Theorem update_code_requirements_idempotent (h : Host)
  (config config1 : json) (binary_path resolved_path new_hash : string)
  (Hrun : update_code_requirements h config binary_path resolved_path
            new_hash = Ok config1) :
  update_code_requirements h config1 binary_path resolved_path new_hash
  = Ok config1.
Proof.
  assert (Hcreate : forall d,
             config = JObj d ->
             create_requirement config resolved_path new_hash = Ok config1 ->
             exists r0,
               config1
               = JObj (dict_set "codeRequirements"
                         (JObj (dict_set resolved_path (file_hash new_hash)
                                  r0)) d)
               /\ r0 = requirements_of (JObj d)
               /\ forall x, dict_get "codeRequirements" d = Some x ->
                            is_object x = true).
  { intros d -> C. apply create_requirement_form in C.
    destruct C as [-> S]. eauto. }
  pose proof (update_code_requirements_ok _ _ _ _ _ _ Hrun)
    as (d & d1' & _ & _ & -> & _).
  specialize (Hcreate d eq_refl).
  unfold update_code_requirements in Hrun |- *.
  destruct (find_code_requirement_key_cases h binary_path)
    as [Hnone|[Herr|(package_name & relative_path & Hsearch)]].
  - rewrite Hnone in *. simpl in *.
    destruct (Hcreate Hrun) as (r0 & -> & _ & _).
    apply create_requirement_again.
  - rewrite Herr in Hrun. discriminate.
  - apply bind_ok in Hrun. destruct Hrun as (cr_key & Hfind & Hrun).
    assert (Hcreated :
              create_requirement (JObj d) resolved_path new_hash = Ok config1 ->
              (exists k0, cr_key = Some (JStr k0) /\ truthy (JStr k0) = false)
              \/ cr_key = None ->
              (cr <- find_code_requirement_key h config1 binary_path ;;
               match cr with
               | Some key =>
                   if truthy key
                   then fix_requirement config1 key new_hash
                   else create_requirement config1 resolved_path new_hash
               | None => create_requirement config1 resolved_path new_hash
               end) = Ok config1).
    { intros C Hcr. destruct (Hcreate C) as (r0 & -> & -> & Hshape).
      rewrite Hsearch in Hfind |- *.
      rewrite (search_over_keys d package_name relative_path Hshape) in Hfind.
      rewrite search_over_keys
        by (intros x; rewrite dict_get_set_same; intros E; now inversion E).
      rewrite requirements_of_set, dict_keys_set. simpl bind.
      inversion Hfind as [Hfound]. clear Hfind.
      set (f := fun k => contains package_name k && contains relative_path k)
        in *.
      set (r0 := requirements_of (JObj d)) in *.
      assert (Hagain := create_requirement_again d r0 resolved_path new_hash).
      assert (Hfresh :
                f resolved_path = true ->
                truthy (JStr resolved_path) = true ->
                fix_requirement
                  (JObj (dict_set "codeRequirements"
                           (JObj (dict_set resolved_path (file_hash new_hash)
                                    r0)) d))
                  (JStr resolved_path) new_hash
                = Ok (JObj (dict_set "codeRequirements"
                              (JObj (dict_set resolved_path
                                       (file_hash new_hash) r0)) d))).
      { intros _ _.
        apply (fix_requirement_fixed_point _
                 (dict_set resolved_path (file_hash new_hash) r0)
                 [("type", JStr "fileHash");
                  ("codeIdentifier", JStr new_hash)]).
        - apply dict_get_set_same.
        - apply dict_get_set_same.
        - reflexivity.
        - reflexivity. }
      destruct (dict_mem resolved_path r0).
      - destruct Hcr as [(k0 & -> & F) | ->];
          destruct (find f (dict_keys r0)) as [k|]; try discriminate.
        + simpl in Hfound. inversion Hfound. subst k0.
          cbn [option_map]. rewrite F. exact Hagain.
        + exact Hagain.
      - rewrite find_app_one.
        destruct Hcr as [(k0 & -> & F) | ->];
          destruct (find f (dict_keys r0)) as [k|]; try discriminate.
        + simpl in Hfound. inversion Hfound. subst k0.
          cbn [option_map]. rewrite F. exact Hagain.
        + destruct (f resolved_path) eqn:Ff; cbn [option_map];
            [|exact Hagain].
          destruct (truthy (JStr resolved_path)) eqn:T; [|exact Hagain].
          now apply Hfresh. }
    destruct cr_key as [key|]; [|apply Hcreated; auto].
    destruct (truthy key) eqn:T.
    + apply fix_requirement_ok in Hrun;
        [|eapply find_code_requirement_key_key; eauto].
      destruct Hrun as (d0 & r & k & old & E & -> & G & Gk & ->).
      inversion E. subst d0. clear E.
      assert (Hshape : forall x, dict_get "codeRequirements" d = Some x ->
                                 is_object x = true)
        by (intros x E; rewrite G in E; now inversion E).
      rewrite Hsearch in Hfind |- *.
      rewrite (search_over_keys d package_name relative_path Hshape) in Hfind.
      rewrite search_over_keys
        by (intros x; rewrite dict_get_set_same; intros E; now inversion E).
      rewrite requirements_of_set, dict_keys_set.
      unfold dict_mem. rewrite Gk.
      assert (R : requirements_of (JObj d) = r)
        by (unfold requirements_of, field; now rewrite G).
      rewrite R in Hfind. inversion Hfind as [Hfound]. rewrite Hfound.
      cbn [bind]. rewrite T.
      apply (fix_requirement_fixed_point _
               (dict_set k (JObj (enforced old new_hash)) r)
               (enforced old new_hash)).
      * apply dict_get_set_same.
      * apply dict_get_set_same.
      * apply enforced_type.
      * apply enforced_identifier.
    + apply Hcreated; [exact Hrun|].
      left. pose proof (find_code_requirement_key_key _ _ _ _ Hfind) as K.
      revert Hfind. rewrite Hsearch.
      intros Hfind. apply bind_ok in Hfind.
      destruct Hfind as (reqs & Hget & Hfind).
      apply bind_ok in Hfind. destruct Hfind as (keys & Hiter & Hfind).
      destruct (create_requirement_form _ _ _ _ Hrun) as [_ Hshape].
      simpl in Hget.
      destruct (dict_get "codeRequirements" d) as [x|] eqn:G.
      * specialize (Hshape x eq_refl). destruct x; try discriminate.
        inversion Hget. subst reqs. simpl in Hiter. inversion Hiter.
        subst keys. rewrite first_match_find in Hfind.
        inversion Hfind as [Hfound].
        destruct (find _ _) as [k0|]; [|discriminate].
        simpl in Hfound. inversion Hfound. subst key. eauto.
      * inversion Hget. subst reqs. simpl in Hiter. inversion Hiter.
        subst keys. discriminate.
Qed.

Lemma update_code_requirements_idempotent_witness :
  exists config1,
    update_code_requirements bench_host (mosh_model trusted_anchor)
      mosh_link mosh_real bench_digest = Ok config1
    /\ update_code_requirements bench_host config1 mosh_link mosh_real
         bench_digest = Ok config1.
Proof.
  eexists. split; [vm_compute; reflexivity|].
  apply (update_code_requirements_idempotent bench_host
           (mosh_model trusted_anchor)).
  vm_compute. reflexivity.
Defined.

(** *** More on part 2 of the edit *)

Lemma other_rules_not_object (binary_path : string) (rules : list json) :
  forallb is_object rules = false ->
  other_rules binary_path rules = Raise AttributeError.
Proof.
  induction rules as [|r rules IH]; simpl; [discriminate|].
  destruct r; try reflexivity. simpl. intros H. now rewrite IH.
Qed.

(** X11.  A rule that is not an object makes the edit fail with
    [AttributeError] under [--replace], where every rule is asked for its
    [process]; without [--replace] the rules are not looked at and the
    new rule is appended. *)
Theorem replace_needs_object_rules (h : Host) (args : Args)
  (binary_path resolved_path new_hash : string) (created modified : datetime)
  (config config1 : json) (rules : list json)
  (Hstep : update_code_requirements h config binary_path resolved_path
             new_hash = Ok config1)
  (Hrules : field config "rules" = Some (JArr rules))
  (Hbad : forallb is_object rules = false) :
  (replace args = true ->
   apply_update h args binary_path resolved_path new_hash created modified
     config = Raise AttributeError)
  /\ (replace args = false ->
      exists config',
        apply_update h args binary_path resolved_path new_hash created
          modified config = Ok config'
        /\ rules_of config'
           = rules ++ [new_rule args binary_path created modified]).
Proof.
  unfold apply_update. rewrite Hstep. simpl.
  apply update_code_requirements_ok in Hstep.
  destruct Hstep as (d & d1 & key & entry & -> & -> & _ & F & _).
  simpl in Hrules. unfold add_rule. simpl.
  rewrite (F "rules") by discriminate. rewrite Hrules.
  split; intros ->; simpl.
  - now rewrite other_rules_not_object.
  - rewrite (F "rules") by discriminate. rewrite Hrules. simpl.
    eexists. split; [reflexivity|].
    unfold rules_of, field. now rewrite dict_get_set_same.
Qed.

Lemma replace_needs_object_rules_witness :
  run_update true
    (JObj [("codeRequirements", JObj []);
           ("rules", JArr [JStr "allow mosh"])])
  = Raise AttributeError
  /\ exists config',
       run_update false
         (JObj [("codeRequirements", JObj []);
                ("rules", JArr [JStr "allow mosh"])]) = Ok config'
       /\ rules_of config'
          = [JStr "allow mosh";
             new_rule (args_of mosh_link false) mosh_link
               (local (bench_now 1)) (local (bench_now 2))].
Proof.
  split.
  - exact (proj1 (replace_needs_object_rules bench_host
                    (args_of mosh_link true) mosh_link mosh_real bench_digest
                    (local (bench_now 1)) (local (bench_now 2))
                    (JObj [("codeRequirements", JObj []);
                           ("rules", JArr [JStr "allow mosh"])])
                    _ [JStr "allow mosh"] eq_refl eq_refl eq_refl) eq_refl).
  - exact (proj2 (replace_needs_object_rules bench_host
                    (args_of mosh_link false) mosh_link mosh_real bench_digest
                    (local (bench_now 1)) (local (bench_now 2))
                    (JObj [("codeRequirements", JObj []);
                           ("rules", JArr [JStr "allow mosh"])])
                    _ [JStr "allow mosh"] eq_refl eq_refl eq_refl) eq_refl).
Defined.

Lemma update_code_requirements_form (h : Host) (d : dict) (config1 : json)
  (binary_path resolved_path new_hash : string) :
  update_code_requirements h (JObj d) binary_path resolved_path new_hash
  = Ok config1 ->
  exists requirements,
    config1 = JObj (dict_set "codeRequirements" (JObj requirements) d).
Proof.
  unfold update_code_requirements. intros E.
  apply bind_ok in E. destruct E as (cr_key & Hfind & E).
  assert (C : create_requirement (JObj d) resolved_path new_hash = Ok config1
              -> exists requirements,
                config1
                = JObj (dict_set "codeRequirements" (JObj requirements) d)).
  { intros C. apply create_requirement_form in C. destruct C as [-> _].
    eauto. }
  destruct cr_key as [key|]; [|auto].
  destruct (truthy key); [|auto].
  apply fix_requirement_ok in E;
    [|eapply find_code_requirement_key_key; eauto].
  destruct E as (d0 & r & k & old & E & -> & G & Gk & ->).
  inversion E. subst d0. eauto.
Qed.

Lemma rules_step_form (d : dict) (rule config' : json) (binary_path : string)
  (replace_existing : bool) :
  (rules <- get_default (JObj d) "rules" (JArr []) ;;
   add_rule (JObj d) rules rule binary_path replace_existing) = Ok config' ->
  exists rules', config' = JObj (dict_set "rules" (JArr rules') d).
Proof.
  unfold add_rule. simpl. destruct replace_existing.
  - intros E. apply bind_ok in E. destruct E as (cfg & E1 & E2).
    apply bind_ok in E1. destruct E1 as (items & _ & E1).
    apply bind_ok in E1. destruct E1 as (kept & _ & E1).
    simpl in E1. inversion E1. subst cfg. clear E1.
    simpl in E2. rewrite dict_get_set_same in E2. simpl in E2.
    inversion E2. rewrite dict_set_twice. eauto.
  - simpl. destruct (dict_get "rules" d) as [x|]; [|discriminate].
    simpl. destruct x; try discriminate. simpl.
    intros E. inversion E. eauto.
Qed.

(** X12.  The edit keeps the top-level fields of the document in their
    order; a [codeRequirements] or [rules] field that was missing is
    added at the end, in this order. *)
Theorem top_level_order_kept (h : Host) (args : Args)
  (binary_path resolved_path new_hash : string) (created modified : datetime)
  (d : dict) (config' : json)
  (Hrun : apply_update h args binary_path resolved_path new_hash created
            modified (JObj d) = Ok config') :
  exists d',
    config' = JObj d'
    /\ dict_keys d'
       = dict_keys d
         ++ (if dict_mem "codeRequirements" d then []
             else ["codeRequirements"])
         ++ (if dict_mem "rules" d then [] else ["rules"]).
Proof.
  unfold apply_update in Hrun.
  apply bind_ok in Hrun. destruct Hrun as (config1 & Hstep & Hrun).
  apply update_code_requirements_form in Hstep.
  destruct Hstep as (requirements & ->).
  apply rules_step_form in Hrun. destruct Hrun as (rules' & ->).
  eexists. split; [reflexivity|].
  rewrite !dict_keys_set.
  rewrite dict_mem_set_other by discriminate.
  destruct (dict_mem "codeRequirements" d), (dict_mem "rules" d); simpl;
    now rewrite ?app_nil_r, <- ?app_assoc.
Qed.

Lemma top_level_order_kept_witness :
  exists d',
    run_update true (JObj [("version", JInt 3)]) = Ok (JObj d')
    /\ dict_keys d' = ["version"; "codeRequirements"; "rules"].
Proof.
  destruct (top_level_order_kept bench_host (args_of mosh_link true)
              mosh_link mosh_real bench_digest (local (bench_now 1))
              (local (bench_now 2)) [("version", JInt 3)]
              (after true (JObj [("version", JInt 3)])) eq_refl)
    as (d' & E & K).
  exists d'. split; [now rewrite <- E | exact K].
Defined.

(** *** The run as a whole *)

Lemma seq_inv (A B : Type) (m : prog A) (k : A -> prog B) (w w' : World)
  (r : result B) :
  seq m k w = (r, w') ->
  (exists e, m w = (Raise e, w') /\ r = Raise e)
  \/ (exists a w1, m w = (Ok a, w1) /\ k a w1 = (r, w')).
Proof.
  unfold seq. destruct (m w) as [[a|e] w1]; intros E.
  - right. eauto.
  - left. inversion E. eauto.
Qed.

Lemma export_config_run (h : Host) (output_path u : string) (w : World) :
  USER h = Some u ->
  export_config h output_path w
  = let (o, files') :=
      spawn h (length (calls w))
        ["sudo"; LS_CMD; "-u"; u; "export-model"; output_path] (files w) in
    let w' := {| files := files';
                 calls := calls w ++ [export_call u output_path o];
                 ticks := ticks w |} in
    match o with
    | Exited code out _ =>
        if (code =? 0)%Z then (Ok (strip out), w')
        else (Raise (SystemExit 1), w')
    | Undecodable _ => (Raise UnicodeDecodeError, w')
    | NotStarted => (Raise OSError, w')
    end.
Proof.
  intros U. unfold export_config, run_command, subprocess_run.
  rewrite U. simpl.
  destruct (spawn h _ _ _) as [o files'].
  destruct o as [code out err|code|]; [|reflexivity|reflexivity].
  unfold export_call. now destruct (code =? 0)%Z.
Qed.

Lemma export_config_cases (h : Host) (output_path u : string) (w w' : World)
  (r : result string) :
  USER h = Some u ->
  export_config h output_path w = (r, w') ->
  exists o,
    calls w' = calls w ++ [export_call u output_path o]
    /\ ticks w' = ticks w
    /\ (forall out, r = Ok out -> exists out' err, o = Exited 0 out' err).
Proof.
  intros U. rewrite (export_config_run h output_path u w U).
  destruct (spawn h _ _ _) as [o files'].
  destruct o as [code out err|code|].
  - destruct (Z.eqb_spec code 0) as [E0|N]; intros E; inversion E; subst;
      eexists; simpl; repeat split; eauto; discriminate.
  - intros E. inversion E. exists (Undecodable code). simpl. repeat split.
    discriminate.
  - intros E. inversion E. exists NotStarted. simpl. repeat split.
    discriminate.
Qed.

Lemma restore_or_revert_cases (h : Host) (modified_file backup_file u : string)
  (w w' : World) (r : result string) :
  USER h = Some u ->
  restore_or_revert h modified_file backup_file w = (r, w') ->
  (exists out err,
      calls w' = calls w ++ [restore_call u modified_file (Exited 0 out err)]
      /\ r = Ok (strip out))
  \/ (exists code out err,
         code <> 0%Z
         /\ calls w' = calls w
                       ++ [restore_call u modified_file (Exited code out err)]
         /\ r = Raise (SystemExit 1))
  \/ (exists o1 o e,
         unreported o1
         /\ calls w' = calls w ++ [restore_call u modified_file o1;
                                   restore_call u backup_file o]
         /\ r = Raise e).
Proof.
  intros U. unfold restore_or_revert, try_except.
  rewrite (restore_config_run h modified_file u w U).
  destruct (spawn h _ _ _) as [o1 files'].
  assert (Hrevert :
            forall w1 : World,
              calls w1 = calls w ++ [restore_call u modified_file o1] ->
              unreported o1 ->
              (_ <~ restore_config h backup_file ;; raise (SystemExit 1)) w1
              = (r, w') ->
              exists o e,
                calls w' = calls w ++ [restore_call u modified_file o1;
                                       restore_call u backup_file o]
                /\ r = Raise e).
  { intros w1 Hc1 _. unfold seq.
    rewrite (restore_config_run h backup_file u w1 U).
    destruct (spawn h _ _ (files w1)) as [o files''].
    intros E. exists o.
    destruct o as [code out err|code|].
    - destruct (code =? 0)%Z; inversion E; eexists;
        (split; [cbn [calls]; rewrite Hc1; now rewrite <- app_assoc
                | reflexivity]).
    - inversion E. eexists.
      split; [cbn [calls]; rewrite Hc1; now rewrite <- app_assoc
             | reflexivity].
    - inversion E. eexists.
      split; [cbn [calls]; rewrite Hc1; now rewrite <- app_assoc
             | reflexivity]. }
  destruct o1 as [code out err|code|].
  - destruct (Z.eqb_spec code 0) as [->|N]; simpl; intros E; inversion E.
    + left. exists out, err. auto.
    + right. left. exists code, out, err. auto.
  - simpl. intros E. right. right. exists (Undecodable code).
    assert (Hu : unreported (Undecodable code)) by (right; eauto).
    destruct (Hrevert (Build_World files' _ (ticks w)) eq_refl Hu E)
      as (o & e & Hc & Hr).
    exists o, e. auto.
  - simpl. intros E. right. right. exists NotStarted.
    assert (Hu : unreported NotStarted) by now left.
    destruct (Hrevert (Build_World files' _ (ticks w)) eq_refl Hu E)
      as (o & e & Hc & Hr).
    exists o, e. auto.
Qed.

Lemma edit_quiet (h : Host) (args : Args)
  (binary_path resolved_path new_hash : string) (config : json)
  (w w' : World) (r : result json) :
  edit h args binary_path resolved_path new_hash config w = (r, w') ->
  calls w' = calls w /\ files w' = files w.
Proof.
  unfold edit, seq, lift, make_new_rule, seq, datetime_now, ret.
  destruct (update_code_requirements _ _ _ _ _) as [c1|e].
  - destruct (get_default c1 "rules" (JArr [])) as [rules|e]; simpl.
    + intros E. inversion E. auto.
    + intros E. inversion E. auto.
  - intros E. inversion E. auto.
Qed.

Lemma makedirs_quiet (p : string) (w w' : World) (r : result unit) :
  makedirs p w = (r, w') -> calls w' = calls w /\ ticks w' = ticks w.
Proof.
  unfold makedirs. destruct (files w p) as [[|content|content]|];
    intros E; inversion E; auto.
Qed.

Lemma write_file_quiet (p : string) (content : list byte) (w w' : World)
  (r : result unit) :
  write_file p content w = (r, w') -> calls w' = calls w.
Proof.
  unfold write_file. destruct (files w p) as [[|c|c]|];
    intros E; inversion E; auto.
Qed.

Lemma update_rule_shape (h : Host) (args : Args) (w w' : World)
  (r : result unit) (u : string) :
  USER h = Some u ->
  update_rule h args w = (r, w') ->
  exists started,
    calls w' = calls w ++ started
    /\ run_shape u
         (backup_file h w)
         (modified_file h w)
         r started.
Proof.
  intros Huser Hrun. unfold update_rule in Hrun.
  unfold backup_file, modified_file.
  assert (Hnone : forall e (w0 : World),
             calls w0 = calls w ->
             exists started,
               calls w0 = calls w ++ started
               /\ run_shape u
                    (backup_file h w)
                    (modified_file h w)
                    (Raise e) started).
  { intros e w0 E. exists []. rewrite app_nil_r. split; [exact E|].
    left. split; [reflexivity | discriminate]. }
  (* os.path.exists *)
  apply seq_inv in Hrun.
  destruct Hrun as [(e & Hm & ->)|(found & w1 & Hm & Hrun)];
    [discriminate Hm|].
  unfold path_exists in Hm. inversion Hm. subst w1. clear Hm.
  (* shutil.which *)
  apply seq_inv in Hrun.
  destruct Hrun as [(e & Hm & ->)|(binary_path & w1 & Hm & Hrun)].
  { apply Hnone.
    destruct found; [discriminate Hm|].
    destruct (which h (path args)) as [p|];
      [destruct (String.eqb p EmptyString)|]; inversion Hm; reflexivity. }
  assert (w1 = w).
  { destruct found; [inversion Hm; reflexivity|].
    destruct (which h (path args)) as [p|];
      [destruct (String.eqb p EmptyString)|]; inversion Hm; reflexivity. }
  subst w1. clear Hm.
  (* get_binary_hash *)
  apply seq_inv in Hrun.
  destruct Hrun as [(e & Hm & ->)|(new_hash & w1 & Hm & Hrun)].
  { apply Hnone. inversion Hm. reflexivity. }
  inversion Hm. subst w1. clear Hm.
  (* os.makedirs *)
  apply seq_inv in Hrun.
  destruct Hrun as [(e & Hm & ->)|(x & w1 & Hm & Hrun)].
  { apply Hnone. now apply makedirs_quiet in Hm. }
  apply makedirs_quiet in Hm. destruct Hm as [Hc1 Ht1].
  (* datetime.now *)
  apply seq_inv in Hrun.
  destruct Hrun as [(e & Hm & ->)|(stamp & w2 & Hm & Hrun)];
    [discriminate Hm|].
  unfold datetime_now in Hm. inversion Hm. subst stamp.
  rewrite Ht1 in *.
  assert (Hc2 : calls w2 = calls w) by (subst w2; exact Hc1).
  clear Hm.
  (* export_config *)
  apply seq_inv in Hrun.
  destruct Hrun as [(e & Hm & ->)|(out & w3 & Hm & Hrun)].
  { destruct (export_config_cases _ _ _ _ _ _ Huser Hm) as (o & Hc & _).
    eexists. split; [rewrite Hc, Hc2; reflexivity|].
    right. left. exists o. split; [reflexivity | discriminate]. }
  destruct (export_config_cases _ _ _ _ _ _ Huser Hm) as (o & Hc3 & _ & Hok).
  destruct (Hok out eq_refl) as (out0 & err0 & ->). clear Hm Hok.
  rewrite Hc2 in Hc3.
  assert (Hexported : forall e (w0 : World),
             calls w0 = calls w3 ->
             exists started,
               calls w0 = calls w ++ started
               /\ run_shape u
                    (backup_file h w)
                    (modified_file h w)
                    (Raise e) started).
  { intros e w0 E. eexists. split; [rewrite E, Hc3; reflexivity|].
    right. left. eexists. split; [reflexivity | discriminate]. }
  (* json.load *)
  apply seq_inv in Hrun.
  destruct Hrun as [(e & Hm & ->)|(config & w4 & Hm & Hrun)].
  { apply Hexported. unfold load_json in Hm. inversion Hm. reflexivity. }
  unfold load_json in Hm. inversion Hm. subst w4. clear Hm.
  (* the edit *)
  apply seq_inv in Hrun.
  destruct Hrun as [(e & Hm & ->)|(config' & w4 & Hm & Hrun)].
  { apply Hexported. now apply edit_quiet in Hm. }
  apply edit_quiet in Hm. destruct Hm as [Hc4 _].
  (* json.dump *)
  apply seq_inv in Hrun.
  destruct Hrun as [(e & Hm & ->)|(x' & w5 & Hm & Hrun)].
  { apply Hexported. apply write_file_quiet in Hm. congruence. }
  apply write_file_quiet in Hm.
  assert (Hc5 : calls w5 = calls w ++ [export_call u
             (backup_file h w) (Exited 0 out0 err0)])
    by (unfold backup_file; congruence).
  clear Hm Hc4 Hc3 Hexported.
  (* restore, or revert *)
  apply seq_inv in Hrun.
  destruct Hrun as [(e & Hm & ->)|(out' & w6 & Hm & Hrun)].
  - destruct (restore_or_revert_cases _ _ _ _ _ _ _ Huser Hm)
      as [(o1 & e1 & _ & E)|[(code & o1 & e1 & N & Hc & E)
                             |(o1 & o & e' & Hu & Hc & E)]].
    + discriminate E.
    + inversion E. subst e.
      eexists. split; [rewrite Hc, Hc5, <- app_assoc; reflexivity|].
      right. right. right. left. exists out0, err0, code, o1, e1. auto.
    + eexists. split; [rewrite Hc, Hc5, <- app_assoc; reflexivity|].
      right. right. right. right. exists out0, err0, o1, o, e. auto.
  - destruct (restore_or_revert_cases _ _ _ _ _ _ _ Huser Hm)
      as [(o1 & e1 & Hc & E)|[(code & o1 & e1 & N & Hc & E)
                              |(o1 & o & e' & Hu & Hc & E)]];
      try discriminate E.
    unfold ret in Hrun. inversion Hrun. subst.
    eexists. split; [rewrite Hc, Hc5, <- app_assoc; reflexivity|].
    right. right. left. exists out0, err0, o1, e1. auto.
Qed.

Lemma string_length_append (a b : string) :
  String.length (a ++ b) = String.length a + String.length b.
Proof. induction a as [|c a IH]; simpl; [reflexivity | now rewrite IH]. Qed.

Lemma string_append_assoc (a b c : string) :
  ((a ++ b) ++ c = a ++ b ++ c)%string.
Proof. induction a as [|x a IH]; simpl; [reflexivity | now rewrite IH]. Qed.

Lemma backup_is_not_modified (dir ts : string) :
  path_join dir ("ls_backup_" ++ ts ++ ".json")
  <> ("/tmp/ls_modified_" ++ ts ++ ".json")%string.
Proof.
  assert (P : forall x : string,
             (x ++ "ls_backup_" ++ ts ++ ".json")%string
             <> ("/tmp/ls_modified_" ++ ts ++ ".json")%string).
  { intros x E.
    assert (L := f_equal String.length E).
    rewrite string_length_append in L. simpl in L.
    destruct x as [|c1 [|c2 [|c3 [|c4 [|c5 [|c6 [|c7 [|c8 x]]]]]]]];
      simpl in L; try lia.
    simpl in E. inversion E. }
  unfold path_join.
  change (String.prefix "/" ("ls_backup_" ++ ts ++ ".json")) with false.
  cbv iota.
  destruct (String.eqb dir EmptyString || ends_with_slash dir).
  - apply P.
  - intros E. apply (P (dir ++ "/")%string).
    rewrite <- E. apply string_append_assoc.
Qed.

(** X17.  In a run of [update_rule], a [restore-model] process is only
    ever started after an [export-model] process that ended with status
    0: the store is not written before its model has been saved. *)
Theorem restore_only_after_export (h : Host) (args : Args) (w w' : World)
  (r : result unit) (u file : string) (o : outcome) (started : list call)
  (Huser : USER h = Some u)
  (Hrun : update_rule h args w = (r, w'))
  (Hstarted : calls w' = calls w ++ started)
  (Hrestore : In (restore_call u file o) started) :
  exists backup out err rest,
    started = export_call u backup (Exited 0 out err) :: rest.
Proof.
  destruct (update_rule_shape h args w w' r u Huser Hrun)
    as (started' & Hc & Hshape).
  rewrite Hstarted in Hc. apply app_inv_head in Hc. subst started'.
  destruct Hshape as [[-> _]|[(o' & -> & _)|[(out & err & out' & err' & -> & _)
    |[(out & err & code & out' & err' & _ & -> & _)
     |(out & err & o1 & o' & e & _ & -> & _)]]]].
  - contradiction.
  - destruct Hrestore as [E|[]]. discriminate E.
  - eauto.
  - eauto.
  - eauto.
Qed.

(** X18.  [update_rule] returns normally only when exactly two child
    processes were started and both ended with status 0: the
    [export-model] to the backup file, then the [restore-model] of the
    modified file. *)
Theorem success_means_store_accepted (h : Host) (args : Args) (w w' : World)
  (u : string)
  (Huser : USER h = Some u)
  (Hrun : update_rule h args w = (Ok tt, w')) :
  exists out err out' err',
    calls w'
    = calls w
      ++ [export_call u
            (backup_file h w) (Exited 0 out err);
          restore_call u
            (modified_file h w) (Exited 0 out' err')].
Proof.
  destruct (update_rule_shape h args w w' (Ok tt) u Huser Hrun)
    as (started & Hc & Hshape).
  destruct Hshape as [[_ N]|[(o' & _ & N)|[(out & err & out' & err' & -> & _)
    |[(out & err & code & out' & err' & _ & _ & E)
     |(out & err & o1 & o' & e & _ & _ & E)]]]];
    try (exfalso; now apply N); try discriminate E.
  eauto.
Qed.

(** X19.  The backup file is only ever given to [restore-model] as the
    third and last child process of a run, and only after a
    [restore-model] of the modified file whose end [subprocess.run]
    reported by an exception other than [CalledProcessError]: the
    process could not be started, or its output could not be decoded.
    It is never given after a [restore-model] whose non-zero status
    [run_command] turned into [sys.exit(1)].  Such a run does not return
    normally.  (The backup file and the modified file are never the same
    path.) *)
Theorem backup_restored_only_when_unreported (h : Host) (args : Args)
  (w w' : World) (r : result unit) (u : string) (o : outcome)
  (started : list call)
  (Huser : USER h = Some u)
  (Hrun : update_rule h args w = (r, w'))
  (Hstarted : calls w' = calls w ++ started)
  (Hrevert : In (restore_call u
                   (backup_file h w) o) started) :
  exists out err o1,
    (o1 = NotStarted \/ exists code, o1 = Undecodable code)
    /\ (forall code out' err', o1 <> Exited code out' err')
    /\ started
       = [export_call u
            (backup_file h w) (Exited 0 out err);
          restore_call u
            (modified_file h w) o1;
          restore_call u
            (backup_file h w) o]
    /\ r <> Ok tt.
Proof.
  destruct (update_rule_shape h args w w' r u Huser Hrun)
    as (started' & Hc & Hshape).
  rewrite Hstarted in Hc. apply app_inv_head in Hc. subst started'.
  pose proof (backup_is_not_modified (expanduser h "~/.ls_backups")
                (strftime_compact (local (now h (ticks w))))) as Hdiff.
  assert (Hnot : forall o1,
             restore_call u
               (backup_file h w) o
             <> restore_call u
                  (modified_file h w)
                  o1).
  { intros o1 E. unfold restore_call in E. inversion E. contradiction. }
  destruct Hshape as [[-> _]|[(o' & -> & _)|[(out & err & out' & err' & -> & _)
    |[(out & err & code & out' & err' & _ & -> & _)
     |(out & err & o1 & o' & e & Hu & -> & ->)]]]].
  - contradiction.
  - destruct Hrevert as [E|[]]. discriminate E.
  - destruct Hrevert as [E|[E|[]]]; [discriminate E|].
    symmetry in E. now apply Hnot in E.
  - destruct Hrevert as [E|[E|[]]]; [discriminate E|].
    symmetry in E. now apply Hnot in E.
  - destruct Hrevert as [E|[E|[E|[]]]]; [discriminate E| |].
    + symmetry in E. now apply Hnot in E.
    + unfold restore_call in E. inversion E. subst o'.
      exists out, err, o1. split; [exact Hu|].
      split; [|split; [reflexivity | discriminate]].
      intros code out' err' E1.
      destruct Hu as [Hu|(c & Hu)]; rewrite Hu in E1; discriminate E1.
Qed.

(** X16.  When [USER] is not set, the command line of the store holds
    [None] and [subprocess.run] raises before anything is executed: the
    run starts no child process and does not return normally. *)
Theorem nothing_started_without_user (h : Host) (args : Args) (w w' : World)
  (r : result unit)
  (Huser : USER h = None)
  (Hrun : update_rule h args w = (r, w')) :
  calls w' = calls w /\ r <> Ok tt.
Proof.
  unfold update_rule in Hrun.
  apply seq_inv in Hrun.
  destruct Hrun as [(e & Hm & ->)|(found & w1 & Hm & Hrun)];
    [discriminate Hm|].
  unfold path_exists in Hm. inversion Hm. subst w1. clear Hm.
  apply seq_inv in Hrun.
  destruct Hrun as [(e & Hm & ->)|(binary_path & w1 & Hm & Hrun)].
  { split; [|discriminate].
    destruct found; [discriminate Hm|].
    destruct (which h (path args)) as [p|];
      [destruct (String.eqb p EmptyString)|]; inversion Hm; reflexivity. }
  assert (w1 = w).
  { destruct found; [inversion Hm; reflexivity|].
    destruct (which h (path args)) as [p|];
      [destruct (String.eqb p EmptyString)|]; inversion Hm; reflexivity. }
  subst w1. clear Hm.
  apply seq_inv in Hrun.
  destruct Hrun as [(e & Hm & ->)|(new_hash & w1 & Hm & Hrun)].
  { inversion Hm. split; [reflexivity | discriminate]. }
  inversion Hm. subst w1. clear Hm.
  apply seq_inv in Hrun.
  destruct Hrun as [(e & Hm & ->)|(x & w1 & Hm & Hrun)].
  { apply makedirs_quiet in Hm. split; [tauto | discriminate]. }
  apply makedirs_quiet in Hm. destruct Hm as [Hc1 _].
  apply seq_inv in Hrun.
  destruct Hrun as [(e & Hm & ->)|(stamp & w2 & Hm & Hrun)];
    [discriminate Hm|].
  unfold datetime_now in Hm. inversion Hm. subst stamp w2. clear Hm.
  apply seq_inv in Hrun.
  destruct Hrun as [(e & Hm & ->)|(out & w3 & Hm & Hrun)].
  - unfold export_config, run_command, subprocess_run in Hm.
    rewrite Huser in Hm. simpl in Hm. inversion Hm.
    split; [exact Hc1 | discriminate].
  - unfold export_config, run_command, subprocess_run in Hm.
    rewrite Huser in Hm. simpl in Hm. discriminate Hm.
Qed.

(** X15.  When the path given is not an existing file and
    [shutil.which] finds nothing, [update_rule] ends with [sys.exit(1)]
    at once: no directory is made, no clock is read, no process is
    started. *)
Theorem binary_not_found_exits (h : Host) (args : Args) (w : World)
  (Hpath : files w (path args) = None)
  (Hwhich : which h (path args) = None) :
  update_rule h args w = (Raise (SystemExit 1), w).
Proof.
  unfold update_rule, seq, path_exists. rewrite Hpath, Hwhich. reflexivity.
Qed.

(** X14.  [run_command] never lets a [CalledProcessError] out, and
    starts at most one child process.  Either nothing was started and
    the files are as they were, and then an exception is raised; or one
    process was started, with the words of the command as they are, and
    what comes back follows from how it ended: with status 0 and
    decodable output, the standard output stripped of white space is
    returned; with another status and decodable output,
    [SystemExit(1)]; with output that cannot be decoded, whatever the
    status, the [UnicodeDecodeError] of [subprocess.run] is let
    through; and a process that could not be executed is an
    [OSError]. *)
Theorem run_command_outcomes (h : Host) (cmd : list (option string))
  (w w' : World) (r : result string)
  (Hrun : run_command h cmd w = (r, w')) :
  (forall code, r <> Raise (CalledProcessError code))
  /\ ticks w' = ticks w
  /\ ((calls w' = calls w /\ files w' = files w
       /\ exists e, r = Raise e /\ is_Exception e = true)
      \/ (exists args o,
             all_str cmd = Some args
             /\ calls w' = calls w ++ [{| argv := args; ended := o |}]
             /\ match o with
                | Exited code out _ =>
                    if (code =? 0)%Z then r = Ok (strip out)
                    else r = Raise (SystemExit 1)
                | Undecodable _ => r = Raise UnicodeDecodeError
                | NotStarted => r = Raise OSError
                end)).
Proof.
  unfold run_command, subprocess_run in Hrun.
  destruct (all_str cmd) as [args|].
  - destruct (spawn h _ _ _) as [o files'].
    destruct o as [code out err|code|].
    + destruct (code =? 0)%Z eqn:C; inversion Hrun; subst;
        (split; [discriminate|]); (split; [reflexivity|]);
        right; exists args, (Exited code out err);
        simpl; rewrite C; auto.
    + inversion Hrun; subst. split; [discriminate|].
      split; [reflexivity|]. right.
      exists args, (Undecodable code). simpl. auto.
    + inversion Hrun; subst. split; [discriminate|].
      split; [reflexivity|]. right.
      exists args, NotStarted. simpl. auto.
  - inversion Hrun. subst. split; [discriminate|].
    split; [reflexivity|]. left.
    repeat split. exists TypeError. auto.
Qed.

Lemma seq_ok (A B : Type) (m : prog A) (k : A -> prog B) (w w' : World)
  (b : B) :
  seq m k w = (Ok b, w') ->
  exists a w1, m w = (Ok a, w1) /\ k a w1 = (Ok b, w').
Proof.
  intros E. apply seq_inv in E.
  destruct E as [(e & _ & E)|E]; [discriminate E | exact E].
Qed.

(** X21.  A run that returns normally did this: it fingerprinted the
    binary on the files as they were, had the store export to the backup
    file, parsed that file, applied the edit at the second and third
    readings of the clock, wrote the result to the modified file and had
    the store restore that file, which ended with status 0.  The clock
    was read three times. *)
Theorem restored_model_is_edited_export (h : Host) (args : Args)
  (w w' : World) (u : string)
  (Huser : USER h = Some u)
  (Hrun : update_rule h args w = (Ok tt, w')) :
  exists binary_path new_hash exported_files exported config config'
         out err out' err',
    (binary_path = path args \/ which h (path args) = Some binary_path)
    /\ get_binary_hash h (files w) (realpath h binary_path) = Ok new_hash
    /\ spawn h (length (calls w))
         ["sudo"; LS_CMD; "-u"; u; "export-model"; backup_file h w]
         (write (expanduser h "~/.ls_backups") Dir (files w))
       = (Exited 0 out err, exported_files)
    /\ exported_files (backup_file h w) = Some (File exported)
    /\ json_loads h exported = Some config
    /\ apply_update h args binary_path (realpath h binary_path) new_hash
         (local (now h (S (ticks w)))) (local (now h (S (S (ticks w)))))
         config = Ok config'
    /\ spawn h (S (length (calls w)))
         ["sudo"; LS_CMD; "-u"; u; "restore-model"; modified_file h w]
         (write (modified_file h w) (File (json_dumps h config'))
            exported_files)
       = (Exited 0 out' err', files w')
    /\ ticks w' = 3 + ticks w.
Proof.
  unfold backup_file, modified_file. unfold update_rule in Hrun.
  apply seq_ok in Hrun. destruct Hrun as (found & w1 & Hm & Hrun).
  unfold path_exists in Hm. inversion Hm as [[Hfound Hw]]. subst w1. clear Hm.
  apply seq_ok in Hrun. destruct Hrun as (binary_path & w1 & Hm & Hrun).
  assert (Hbin : (binary_path = path args
                  \/ which h (path args) = Some binary_path) /\ w1 = w).
  { destruct found; [inversion Hm; auto|].
    destruct (which h (path args)) as [p|]; [|discriminate Hm].
    destruct (String.eqb p EmptyString); inversion Hm. auto. }
  destruct Hbin as [Hbin ->]. clear Hm Hfound.
  apply seq_ok in Hrun. destruct Hrun as (new_hash & w1 & Hm & Hrun).
  inversion Hm as [[Hhash Hw]]. subst w1. clear Hm.
  apply seq_ok in Hrun. destruct Hrun as (x & w1 & Hm & Hrun).
  assert (Hw1 : w1 = {| files := write (expanduser h "~/.ls_backups") Dir
                                   (files w);
                        calls := calls w; ticks := ticks w |}).
  { unfold makedirs in Hm.
    destruct (files w (expanduser h "~/.ls_backups")) as [[|c|c]|];
      inversion Hm; reflexivity. }
  subst w1. clear Hm x.
  apply seq_ok in Hrun. destruct Hrun as (stamp & w2 & Hm & Hrun).
  unfold datetime_now in Hm. cbn [files calls ticks] in Hm.
  inversion Hm. subst stamp w2. clear Hm.
  remember (strftime_compact (local (now h (ticks w)))) as ts eqn:Hts in *.
  apply seq_ok in Hrun. destruct Hrun as (out & w3 & Hm & Hrun).
  rewrite (export_config_run h _ u _ Huser) in Hm.
  cbn [files calls ticks] in Hm.
  destruct (spawn h (length (calls w)) _ _) as [o exported_files] eqn:Hexport.
  destruct o as [code out0 err0|code|];
    [|discriminate Hm|discriminate Hm].
  destruct (Z.eqb_spec code 0) as [->|_]; [|discriminate Hm].
  inversion Hm. subst out w3. clear Hm.
  apply seq_ok in Hrun. destruct Hrun as (config & w4 & Hm & Hrun).
  unfold load_json, read_file in Hm. cbn [files] in Hm.
  inversion Hm as [[Hload Hw]]. subst w4. clear Hm.
  destruct (exported_files _) as [[|exported|exported]|] eqn:Hbackup;
    try discriminate Hload.
  simpl in Hload.
  destruct (json_loads h exported) as [config0|] eqn:Hjson;
    [|discriminate Hload].
  inversion Hload. subst config0. clear Hload.
  apply seq_ok in Hrun. destruct Hrun as (config' & w5 & Hm & Hrun).
  match type of Hm with
  | edit _ _ _ _ _ _ ?w0 = _ =>
      pose proof (edit_apply_update h args binary_path
                    (realpath h binary_path) new_hash config w0) as Hedit
  end.
  rewrite Hm in Hedit. cbn [fst ticks] in Hedit.
  assert (Hw5 : w5 = {| files := exported_files;
                        calls := calls w
                                 ++ [export_call u
                                       (path_join
                                          (expanduser h "~/.ls_backups")
                                          ("ls_backup_" ++ ts ++ ".json"))
                                       (Exited 0 out0 err0)];
                        ticks := S (S (S (ticks w))) |}).
  { revert Hm. unfold edit, seq, lift, make_new_rule, seq, datetime_now, ret.
    destruct (update_code_requirements _ _ _ _ _) as [c1|e];
      [|discriminate].
    destruct (get_default c1 "rules" (JArr [])) as [rules|e];
      [|discriminate].
    cbn [files calls ticks]. intros E. inversion E. reflexivity. }
  subst w5. clear Hm.
  apply seq_ok in Hrun. destruct Hrun as (x & w6 & Hm & Hrun).
  assert (Hw6 : files w6
                = write ("/tmp/ls_modified_" ++ ts ++ ".json")
                    (File (json_dumps h config')) exported_files
                /\ calls w6
                   = calls w
                     ++ [export_call u
                           (path_join (expanduser h "~/.ls_backups")
                              ("ls_backup_" ++ ts ++ ".json"))
                           (Exited 0 out0 err0)]
                /\ ticks w6 = S (S (S (ticks w)))).
  { unfold write_file in Hm. cbn [files calls ticks] in Hm.
    destruct (exported_files _) as [[|c|c]|]; inversion Hm; auto. }
  destruct Hw6 as (Hf6 & Hc6 & Ht6). clear Hm x.
  apply seq_ok in Hrun. destruct Hrun as (out' & w7 & Hm & Hrun).
  unfold ret in Hrun. inversion Hrun. subst w7. clear Hrun.
  unfold restore_or_revert, try_except in Hm.
  rewrite (restore_config_run h _ u w6 Huser) in Hm.
  rewrite Hf6, Hc6, Ht6 in Hm.
  rewrite length_app in Hm. cbn [length] in Hm.
  replace (length (calls w) + 1) with (S (length (calls w))) in Hm by lia.
  destruct (spawn h (S (length (calls w))) _ _) as [o restored] eqn:Hrestore.
  destruct o as [code out1 err1|code|].
  - destruct (Z.eqb_spec code 0) as [->|_]; [|discriminate Hm].
    inversion Hm. subst.
    exists binary_path, new_hash, exported_files, exported, config, config',
      out0, err0, out1, err1.
    cbn [files ticks]. repeat split; auto.
  - cbn [is_Exception] in Hm. unfold seq in Hm.
    destruct (restore_config h _ _) as [[s|e] w8]; discriminate Hm.
  - cbn [is_Exception] in Hm. unfold seq in Hm.
    destruct (restore_config h _ _) as [[s|e] w8]; discriminate Hm.
Qed.

Lemma run_result (h : Host) (args : Args) (w : World) (r : result unit) :
  fst (update_rule h args w) = r ->
  update_rule h args w = (r, snd (update_rule h args w)).
Proof. intros <-. apply surjective_pairing. Qed.

Lemma restore_only_after_export_witness :
  exists backup out err rest,
    [export_call "tester" bench_backup (Exited 0 EmptyString EmptyString);
     restore_call "tester" bench_modified
       (Exited 1 EmptyString "restore-model: invalid model")]
    = export_call "tester" backup (Exited 0 out err) :: rest.
Proof.
  apply (restore_only_after_export (host empty_model restore_exits_1)
           test_args start
           (snd (update_rule (host empty_model restore_exits_1) test_args
                   start))
           (Raise (SystemExit 1)) "tester" bench_modified
           (Exited 1 EmptyString "restore-model: invalid model")).
  - reflexivity.
  - apply run_result. vm_compute. reflexivity.
  - vm_compute. reflexivity.
  - right. left. reflexivity.
Defined.

Lemma success_means_store_accepted_witness :
  exists out err out' err',
    calls (snd (update_rule (host empty_model restore_ok) test_args start))
    = calls start
      ++ [export_call "tester"
            (backup_file (host empty_model restore_ok) start)
            (Exited 0 out err);
          restore_call "tester"
            (modified_file (host empty_model restore_ok) start)
            (Exited 0 out' err')].
Proof.
  apply (success_means_store_accepted (host empty_model restore_ok)
           test_args start).
  - reflexivity.
  - apply run_result. vm_compute. reflexivity.
Defined.

Lemma backup_restored_only_when_unreported_witness :
  exists out err o1,
    (o1 = NotStarted \/ exists code, o1 = Undecodable code)
    /\ (forall code out' err', o1 <> Exited code out' err')
    /\ [export_call "tester" bench_backup (Exited 0 EmptyString EmptyString);
        restore_call "tester" bench_modified (Undecodable 3);
        restore_call "tester" bench_backup
          (Exited 0 EmptyString EmptyString)]
       = [export_call "tester"
            (backup_file (host empty_model restore_undecodable) start)
            (Exited 0 out err);
          restore_call "tester"
            (modified_file (host empty_model restore_undecodable) start)
            o1;
          restore_call "tester"
            (backup_file (host empty_model restore_undecodable) start)
            (Exited 0 EmptyString EmptyString)]
    /\ Raise (SystemExit 1) <> Ok tt.
Proof.
  apply (backup_restored_only_when_unreported
           (host empty_model restore_undecodable) test_args start
           (snd (update_rule (host empty_model restore_undecodable) test_args
                   start))
           (Raise (SystemExit 1)) "tester"
           (Exited 0 EmptyString EmptyString)).
  - reflexivity.
  - apply run_result. vm_compute. reflexivity.
  - vm_compute. reflexivity.
  - right. right. left. vm_compute. reflexivity.
Defined.

Lemma nothing_started_without_user_witness :
  calls (snd (update_rule host_without_user test_args start)) = calls start
  /\ Raise TypeError <> Ok tt.
Proof.
  apply (nothing_started_without_user host_without_user test_args start).
  - reflexivity.
  - apply run_result. vm_compute. reflexivity.
Defined.

Lemma binary_not_found_exits_witness :
  update_rule bench_host (args_of "/nonexistent/binary" false) start
  = (Raise (SystemExit 1), start).
Proof.
  apply (binary_not_found_exits bench_host
           (args_of "/nonexistent/binary" false) start); reflexivity.
Defined.

Lemma run_command_outcomes_witness :
  (forall code,
      fst (restore_config (host empty_model restore_exits_1) bench_modified
             start) <> Raise (CalledProcessError code))
  /\ fst (restore_config (host empty_model restore_exits_1) bench_modified
            start) = Raise (SystemExit 1).
Proof.
  split; [|reflexivity].
  exact (proj1 (run_command_outcomes (host empty_model restore_exits_1)
                  [Some "sudo"; Some LS_CMD; Some "-u"; Some "tester";
                   Some "restore-model"; Some bench_modified] start
                  (snd (restore_config (host empty_model restore_exits_1)
                          bench_modified start))
                  (fst (restore_config (host empty_model restore_exits_1)
                          bench_modified start))
                  (surjective_pairing _))).
Defined.

Lemma restored_model_is_edited_export_witness :
  exists config',
    apply_update (host empty_model restore_ok) test_args
      "/usr/local/bin/test" "/usr/local/bin/test" bench_digest
      (local (bench_now 1)) (local (bench_now 2)) empty_model = Ok config'
    /\ ticks (snd (update_rule (host empty_model restore_ok) test_args start))
       = 3.
Proof.
  destruct (restored_model_is_edited_export (host empty_model restore_ok)
              test_args start
              (snd (update_rule (host empty_model restore_ok) test_args
                      start))
              "tester" eq_refl
              (run_result _ _ _ _ eq_refl))
    as (binary_path & new_hash & exported_files & exported & config & config'
        & out & err & out' & err' & Hbin & Hhash & Hexport & Hbackup & Hjson
        & Hedit & Hrestore & Hticks).
  destruct Hbin as [->|Hbin]; [|discriminate Hbin].
  assert (new_hash = bench_digest)
    by (vm_compute in Hhash; inversion Hhash; reflexivity).
  subst new_hash.
  assert (Hfiles : exported_files
                   = write bench_backup (File exported_text)
                       (write "/Users/tester/.ls_backups" Dir disk))
    by (vm_compute in Hexport; inversion Hexport; reflexivity).
  subst exported_files.
  assert (exported = exported_text)
    by (vm_compute in Hbackup; inversion Hbackup; reflexivity).
  subst exported.
  assert (config = empty_model)
    by (vm_compute in Hjson; inversion Hjson; reflexivity).
  subst config.
  exists config'. split; [exact Hedit | exact Hticks].
Defined.

Lemma unstarted_restore_is_reverted_witness :
  exists o r w',
    restore_or_revert (host empty_model restore_not_started) bench_modified
      bench_backup start = (Raise r, w')
    /\ calls w' = calls start
                  ++ [restore_call "tester" bench_modified NotStarted;
                      restore_call "tester" bench_backup o].
Proof.
  exact (unstarted_restore_is_reverted (host empty_model restore_not_started)
           start bench_modified bench_backup "tester" disk eq_refl eq_refl).
Defined.

Lemma missing_fields_tolerated_witness :
  exists config',
    run_update true (JObj []) = Ok config'
    /\ (dict_get "codeRequirements" [] = None ->
        requirements_of config' = [(mosh_real, file_hash bench_digest)])
    /\ (dict_get "rules" [] = None ->
        rules_of config'
        = [new_rule (args_of mosh_link true) mosh_link (local (bench_now 1))
             (local (bench_now 2))]).
Proof.
  apply (missing_fields_tolerated bench_host (args_of mosh_link true)
           mosh_link mosh_real bench_digest (local (bench_now 1))
           (local (bench_now 2)) [] None).
  - reflexivity.
  - reflexivity.
  - left. reflexivity.
Defined.
